(** * Taxi price prediction: the FastAPI backend and the Streamlit client

    A shallow embedding of [src/taxipred/backend/api.py] and of the two
    button handlers of [src/taxipred/frontend/app.py], with the properties
    of the prediction pipeline and of the client's error paths. *)

From Stdlib Require Import QArith Qround Qabs Lqa.
From stdpp Require Import base strings list gmap pretty.

(** ** Values *)

(** Python's [float] is modelled by the rationals: the code only compares
    floats with constants and rounds one of them. Infinities, NaN and the
    representation error of binary floating point are outside the model. *)
Abbreviation float := Q.

(** A JSON value as the request body carries it. Arrays and objects are
    never read inside by this program, so they stay opaque. *)
Inductive jvalue : Type :=
  | JNull
  | JBool (b : bool)
  | JNum (q : float)
  | JStr (s : string)
  | JComposite.

(** A cell of the one-row [DataFrame]: a string label, a float, or the
    integer code an encoder produced. *)
Inductive cell : Type :=
  | CStr (s : string)
  | CFloat (q : float)
  | CInt (z : Z).

(** Exceptions, by class, with the data their [str()] is built from. *)
Inductive exn : Type :=
  | KeyError (key_repr : string)
  | ValueError (msg : string)
  | IndexError (msg : string)
  | ConnectionError (msg : string)
  | HTTPException (status : Z) (detail : string)
  | OtherException (cls msg : string).

(** [str(e)] *)
Definition str_exn (e : exn) : string :=
  match e with
  | KeyError r => r
  | ValueError m | IndexError m | ConnectionError m | OtherException _ m => m
  | HTTPException st d => pretty st +:+ ": " +:+ d
  end.

(** What the libraries under the program decide and the program does not:
    text renderings and pydantic's coercion of a JSON value to a field's
    type. *)
Class PyLib : Type := {
  (** [repr()] of a [str] *)
  repr_str : string → string;
  (** [str()] of a [float] *)
  str_float : float → string;
  (** pydantic: a JSON value accepted for a [float] field *)
  validate_float : jvalue → option float;
  (** pydantic: a JSON value accepted for a [str] field *)
  validate_str : jvalue → option string;
  (** pandas: the message of the [KeyError] of [df[keys]], from the
      requested keys and the frame's columns *)
  pandas_not_in_index : list string → list string → string;
  (** [f"{x:.2f}"] on a float *)
  format_2f : float → string;
  (** [f"{v:.2f}"] on a decoded JSON value, which raises on a value that
      has no such format *)
  json_format_2f : jvalue → exn + string;
  (** [f"{v}"] on a decoded JSON value *)
  json_str : jvalue → string;
}.

(** ** Statements that may raise

    A statement runs on a state, returns a value or raises, and leaves a
    state behind either way. The backend runs on the process, the client
    on its session. *)

Definition M (S A : Type) : Type := S → (exn + A) * S.

Definition ret {S A} (a : A) : M S A := λ s, (inr a, s).

Definition raise {S A} (e : exn) : M S A := λ s, (inl e, s).

Definition bind {S A B} (m : M S A) (k : A → M S B) : M S B :=
  λ s, match m s with
       | (inr a, s') => k a s'
       | (inl e, s') => (inl e, s')
       end.

(** [try: body  except Exception as e: handler(e)] *)
Definition try_except {S A} (body : M S A) (handler : exn → M S A) : M S A :=
  λ s, match body s with
       | (inr a, s') => (inr a, s')
       | (inl e, s') => handler e s'
       end.

Notation "'let*' x := m 'in' k" := (bind m (λ x, k))
  (at level 10, x name, m at level 100, k at level 200).
Notation "m ;; k" := (bind m (λ _, k))
  (at level 100, k at level 200, right associativity).

(** A value or the exception a library returned. *)
Definition lift {S A} (r : exn + A) : M S A :=
  match r with inr a => ret a | inl e => raise e end.

(** [d[key]] *)
Definition dict_getitem `{PyLib} {V} (d : gmap string V) (key : string)
    : exn + V :=
  match d !! key with
  | Some v => inr v
  | None => inl (KeyError (repr_str key))
  end.

(** Whether a text occurs inside another. *)
Fixpoint occurs_in (needle hay : string) : bool :=
  String.prefix needle hay
  || match hay with
     | EmptyString => false
     | String _ rest => occurs_in needle rest
     end.

(** * The backend, [api.py] *)

Module api.

(** ** The one-row DataFrame *)

(** [pd.DataFrame([d])]: the columns in the dictionary's order, one cell
    each. *)
Definition DataFrame : Type := list (string * cell).

(** [df.columns] *)
Definition columns (df : DataFrame) : list string := df.*1.

(** The cell of a column, the first of that name. *)
Fixpoint df_cell (col : string) (df : DataFrame) : option cell :=
  match df with
  | [] => None
  | (c, v) :: df' => if decide (c = col) then Some v else df_cell col df'
  end.

(** [df[col] = v]: the column keeps its place when it exists and is added
    at the end when it does not. *)
Fixpoint df_setitem (col : string) (v : cell) (df : DataFrame) : DataFrame :=
  match df with
  | [] => [(col, v)]
  | (c, w) :: df' =>
      if decide (c = col) then (c, v) :: df' else (c, w) :: df_setitem col v df'
  end.

(** [df[keys]] for a list of keys: the named columns in the order of the
    keys, or a [KeyError] when one of them is not a column. *)
Definition df_getitem_list `{PyLib} (keys : list string) (df : DataFrame)
    : exn + DataFrame :=
  match mapM (λ k, (k,.) <$> df_cell k df) keys with
  | Some sub => inr sub
  | None => inl (KeyError (repr_str (pandas_not_in_index keys (columns df))))
  end.

(** The stores [df[k] = x] of a list of keys and values, in order. *)
Definition assign (df : DataFrame) (kvs : list (string * float)) : DataFrame :=
  foldl (λ d kv, df_setitem kv.1 (CFloat kv.2) d) df kvs.

(** [df[keys] = values] for a 2-D array of one row: pandas checks the
    widths and then assigns column by column, in the order of the keys. *)
Definition df_setitem_list (keys : list string) (values : list float)
    (df : DataFrame) : exn + DataFrame :=
  if decide (length values = length keys) then
    inr (assign df (zip keys values))
  else inl (ValueError "Columns must be same length as key").

(** ** The model artifacts *)

(** An entry of [label_encoders.joblib], a fitted scikit-learn
    [LabelEncoder]: its vocabulary [classes_], in the order of the codes. *)
Record LabelEncoder : Type := { classes_ : list string }.

(** The position of a label in a vocabulary. *)
Fixpoint label_code (label : string) (classes : list string) : option Z :=
  match classes with
  | [] => None
  | c :: cs =>
      if decide (c = label) then Some 0%Z else Z.succ <$> label_code label cs
  end.

(** The label a cell is looked up under. *)
Definition cell_label `{PyLib} (v : cell) : string :=
  match v with
  | CStr s => s
  | CFloat q => str_float q
  | CInt z => pretty z
  end.

(** [encoder.transform(df[col])] on the one-row column: the code of the
    label, or the [ValueError] of an unseen label. *)
Definition le_transform `{PyLib} (le : LabelEncoder) (v : cell) : exn + Z :=
  match label_code (cell_label v) (classes_ le) with
  | Some code => inr code
  | None =>
      inl (ValueError ("y contains previously unseen labels: "
                         +:+ repr_str (cell_label v)))
  end.

(** [feature_names.joblib] *)
Record FeatureInfo : Type := {
  categorical_features : list string;
  numerical_features : list string;
}.

(** The four module-level globals of [api.py]. The model and the scaler
    are opaque: [predict] and [transform] on a one-row frame give an array
    or raise. *)
Record Globals : Type := {
  model : DataFrame → exn + list float;
  scaler : DataFrame → exn + list float;
  label_encoders : gmap string LabelEncoder;
  feature_info : FeatureInfo;
}.

(** ** The process

    The globals of [api.py] and the record of the calls made into the
    artifacts so far. *)

Inductive call : Type :=
  | encoder_transform (col : string) (arg : cell)
  | scaler_transform (arg : DataFrame)
  | model_predict (arg : DataFrame).

Record Process : Type := {
  globals : Globals;
  calls : list call;
}.

(** A call to an encoder, as opposed to the scaler or the model. *)
Definition is_encoder_call (c : call) : bool :=
  match c with encoder_transform _ _ => true | _ => false end.

(** The process after one more call. *)
Definition called (c : call) (p : Process) : Process :=
  {| globals := globals p; calls := calls p ++ [c] |}.

(** Reading a global. *)
Definition global {A} (f : Globals → A) : M Process A :=
  λ p, (inr (f (globals p)), p).

(** A call into an artifact: recorded, then answered by the artifact. *)
Definition invoke {A} (c : call) (r : exn + A) : M Process A :=
  λ p, lift r (called c p).

(** A statement that only reads the globals: on given globals it returns
    one result and adds one list of calls to the record, whatever the
    record held, and leaves the globals as they are. *)
Definition reads_only {A} (m : M Process A) : Prop :=
  ∀ g, ∃ r cs, ∀ l,
    m {| globals := g; calls := l |} = (r, {| globals := g; calls := l ++ cs |}).

(** ** The request and response models *)

Record TripInput : Type := {
  Trip_Distance_km : float;
  Time_of_Day : string;
  Day_of_Week : string;
  Passenger_Count : float;
  Traffic_Conditions : string;
  Weather : string;
  Base_Fare : float;
  Per_Km_Rate : float;
  Per_Minute_Rate : float;
  Trip_Duration_Minutes : float;
}.

Record PredictionResponse : Type := {
  predicted_price : float;
  currency : string;
}.

(** [PredictionResponse(predicted_price=x)]: the currency takes its
    default. *)
Definition PredictionResponse_init (x : float) : PredictionResponse :=
  {| predicted_price := x; currency := "SEK" |}.

(** [trip.dict()]: the fields in their order of declaration. *)
Definition TripInput_dict (trip : TripInput) : list (string * cell) :=
  [ ("Trip_Distance_km", CFloat (Trip_Distance_km trip));
    ("Time_of_Day", CStr (Time_of_Day trip));
    ("Day_of_Week", CStr (Day_of_Week trip));
    ("Passenger_Count", CFloat (Passenger_Count trip));
    ("Traffic_Conditions", CStr (Traffic_Conditions trip));
    ("Weather", CStr (Weather trip));
    ("Base_Fare", CFloat (Base_Fare trip));
    ("Per_Km_Rate", CFloat (Per_Km_Rate trip));
    ("Per_Minute_Rate", CFloat (Per_Minute_Rate trip));
    ("Trip_Duration_Minutes", CFloat (Trip_Duration_Minutes trip)) ].

(** ** Validation of the request body *)

(** One entry of the 422 body. *)
Inductive verror : Type :=
  | value_error_missing
  | type_error
  | not_gt (limit : float)
  | not_le (limit : float).

(** [x > limit] and [x <= limit] on floats. *)
Definition float_gt (x limit : float) : bool :=
  match (limit ?= x)%Q with Lt => true | _ => false end.
Definition float_le (x limit : float) : bool :=
  match (x ?= limit)%Q with Gt => false | _ => true end.

(** [json.loads] of an object: a later member replaces an earlier one of
    the same name. *)
Definition json_object (body : list (string * jvalue)) : gmap string jvalue :=
  foldl (λ d kv, <[kv.1 := kv.2]> d) ∅ body.

(** [Field(..., gt=g, le=l)] on a [float]: required, coerced, then the
    bounds, [gt] before [le]. *)
Definition float_field `{PyLib} (gt le : option float) (name : string)
    (d : gmap string jvalue) : verror + float :=
  match d !! name with
  | None => inl value_error_missing
  | Some j =>
      match validate_float j with
      | None => inl type_error
      | Some x =>
          match gt with
          | Some g => if float_gt x g then
                        match le with
                        | Some l => if float_le x l then inr x else inl (not_le l)
                        | None => inr x
                        end
                      else inl (not_gt g)
          | None =>
              match le with
              | Some l => if float_le x l then inr x else inl (not_le l)
              | None => inr x
              end
          end
      end
  end.

(** [Field(...)] on a [str]: required and coerced. *)
Definition str_field `{PyLib} (name : string) (d : gmap string jvalue)
    : verror + string :=
  match d !! name with
  | None => inl value_error_missing
  | Some j =>
      match validate_str j with
      | None => inl type_error
      | Some s => inr s
      end
  end.

(** The error entry of a field, if it has one. *)
Definition field_error {A} (name : string) (r : verror + A)
    : list (string * verror) :=
  match r with inl e => [(name, e)] | inr _ => [] end.

(** The entries of the 422 body: the error of every field that has one,
    in the order of declaration. *)
Definition validation_errors `{PyLib} (d : gmap string jvalue)
    : list (string * verror) :=
  field_error "Trip_Distance_km"
    (float_field (Some 0%Q) None "Trip_Distance_km" d)
  ++ field_error "Time_of_Day" (str_field "Time_of_Day" d)
  ++ field_error "Day_of_Week" (str_field "Day_of_Week" d)
  ++ field_error "Passenger_Count"
       (float_field (Some 0%Q) (Some 10%Q) "Passenger_Count" d)
  ++ field_error "Traffic_Conditions" (str_field "Traffic_Conditions" d)
  ++ field_error "Weather" (str_field "Weather" d)
  ++ field_error "Base_Fare" (float_field (Some 0%Q) None "Base_Fare" d)
  ++ field_error "Per_Km_Rate" (float_field (Some 0%Q) None "Per_Km_Rate" d)
  ++ field_error "Per_Minute_Rate"
       (float_field (Some 0%Q) None "Per_Minute_Rate" d)
  ++ field_error "Trip_Duration_Minutes"
       (float_field (Some 0%Q) None "Trip_Duration_Minutes" d).

(** The constructor of [TripInput] on the parsed body: every field is
    validated, in the order of declaration, and the errors of all fields
    are reported together. *)
Definition TripInput_validate `{PyLib} (d : gmap string jvalue)
    : list (string * verror) + TripInput :=
  match float_field (Some 0%Q) None "Trip_Distance_km" d,
        str_field "Time_of_Day" d,
        str_field "Day_of_Week" d,
        float_field (Some 0%Q) (Some 10%Q) "Passenger_Count" d,
        str_field "Traffic_Conditions" d,
        str_field "Weather" d,
        float_field (Some 0%Q) None "Base_Fare" d,
        float_field (Some 0%Q) None "Per_Km_Rate" d,
        float_field (Some 0%Q) None "Per_Minute_Rate" d,
        float_field (Some 0%Q) None "Trip_Duration_Minutes" d
  with
  | inr x1, inr x2, inr x3, inr x4, inr x5, inr x6, inr x7, inr x8, inr x9,
    inr x10 =>
      inr {| Trip_Distance_km := x1; Time_of_Day := x2; Day_of_Week := x3;
             Passenger_Count := x4; Traffic_Conditions := x5; Weather := x6;
             Base_Fare := x7; Per_Km_Rate := x8; Per_Minute_Rate := x9;
             Trip_Duration_Minutes := x10 |}
  | _, _, _, _, _, _, _, _, _, _ => inl (validation_errors d)
  end.

(** The float a request body supplies for a field, after coercion. *)
Definition supplied_float `{PyLib} (request_body : list (string * jvalue))
    (name : string) : option float :=
  json_object request_body !! name ≫= validate_float.

(** The fields declared [gt=0]. *)
Definition positive_fields : list string :=
  [ "Trip_Distance_km"; "Passenger_Count"; "Base_Fare"; "Per_Km_Rate";
    "Per_Minute_Rate"; "Trip_Duration_Minutes" ].

(** A body breaks a bound of the data model: a positive field at or
    below zero, or more than ten passengers. *)
Definition violates_constraint `{PyLib} (request_body : list (string * jvalue))
    : Prop :=
  (∃ name x, name ∈ positive_fields
             ∧ supplied_float request_body name = Some x ∧ (x <= 0)%Q)
  ∨ (∃ x, supplied_float request_body "Passenger_Count" = Some x ∧ (10 < x)%Q).

(** ** Rounding *)

Definition pow10 (n : nat) : positive := Nat.iter n (Pos.mul 10) 1%positive.

(** The nearest integer, a tie going to the even one. *)
Definition round_half_even (q : Q) : Z :=
  let f := Qfloor q in
  match (q - inject_Z f ?= 1 # 2)%Q with
  | Lt => f
  | Gt => (f + 1)%Z
  | Eq => if Z.even f then f else (f + 1)%Z
  end.

(** [round(x, ndigits)] for [ndigits >= 0]. *)
Definition round (x : float) (ndigits : nat) : float :=
  (round_half_even (x * inject_Z (Z.pos (pow10 ndigits))) # pow10 ndigits)%Q.

(** ** The prediction endpoint *)

(** [df[col]] for one name. *)
Definition df_getitem `{PyLib} (col : string) (df : DataFrame) : exn + cell :=
  match df_cell col df with
  | Some v => inr v
  | None => inl (KeyError (repr_str col))
  end.

(** [a[0]] on the array the model returned. *)
Definition array_getitem0 (a : list float) : exn + float :=
  match a with
  | x :: _ => inr x
  | [] => inl (IndexError "index 0 is out of bounds for axis 0 with size 0")
  end.

(** The body of the loop at [api.py] lines 102-103. *)
Definition encode_column `{PyLib} (col : string) (df : DataFrame)
    : M Process DataFrame :=
  if decide (col ∈ columns df) then
    let* encoders := global label_encoders in
    let* encoder := lift (dict_getitem encoders col) in
    let* x := lift (df_getitem col df) in
    let* code := invoke (encoder_transform col x) (le_transform encoder x) in
    ret (df_setitem col (CInt code) df)
  else ret df.

(** The loop at lines 101-103. *)
Fixpoint encode_columns `{PyLib} (cols : list string) (df : DataFrame)
    : M Process DataFrame :=
  match cols with
  | [] => ret df
  | col :: rest =>
      let* df' := encode_column col df in
      encode_columns rest df'
  end.

(** The assignment at lines 105-107: the right-hand side first, then the
    store into the frame. *)
Definition scale_columns `{PyLib} (df : DataFrame) : M Process DataFrame :=
  let* sc := global scaler in
  let* fi := global feature_info in
  let* sub := lift (df_getitem_list (numerical_features fi) df) in
  let* scaled := invoke (scaler_transform sub) (sc sub) in
  let* fi' := global feature_info in
  lift (df_setitem_list (numerical_features fi') scaled df).

(** The body of the [try] block, lines 97-113. *)
Definition predict_price_body `{PyLib} (trip : TripInput)
    : M Process PredictionResponse :=
  let input_data := TripInput_dict trip in
  let df : DataFrame := input_data in
  let* fi := global feature_info in
  let* df := encode_columns (categorical_features fi) df in
  let* df := scale_columns df in
  let* m := global model in
  let* out := invoke (model_predict df) (m df) in
  let* prediction := lift (array_getitem0 out) in
  ret (PredictionResponse_init (round prediction 2)).

(** [predict_price], lines 91-116. *)
Definition predict_price `{PyLib} (trip : TripInput) : M Process PredictionResponse :=
  try_except (predict_price_body trip)
    (λ e, raise (HTTPException 500 ("Prediction error: " +:+ str_exn e))).

(** ** The HTTP surface of [POST /predict] *)

Inductive content : Type :=
  | prediction_json (r : PredictionResponse)
  | detail_json (detail : string)
  | validation_json (errors : list (string * verror))
  | plain_text (text : string).

Record response : Type := {
  status_code : Z;
  body : content;
}.

(** What FastAPI does around the route function: the body is validated
    into a [TripInput] first (422 on failure, the function is not
    called), an [HTTPException] becomes its status and detail, any other
    exception a bare 500. *)
Definition post_predict `{PyLib} (request_body : list (string * jvalue))
    (p : Process) : response * Process :=
  match TripInput_validate (json_object request_body) with
  | inl errors => ({| status_code := 422; body := validation_json errors |}, p)
  | inr trip =>
      match predict_price trip p with
      | (inr r, p') => ({| status_code := 200; body := prediction_json r |}, p')
      | (inl (HTTPException st d), p') =>
          ({| status_code := st; body := detail_json d |}, p')
      | (inl _, p') =>
          ({| status_code := 500; body := plain_text "Internal Server Error" |},
           p')
      end
  end.

(** ** Names *)

(** The fields of [TripInput], in the order of declaration, lines 41-50;
    they are the columns of every row the endpoint builds. *)
Definition field_names : list string :=
  [ "Trip_Distance_km"; "Time_of_Day"; "Day_of_Week"; "Passenger_Count";
    "Traffic_Conditions"; "Weather"; "Base_Fare"; "Per_Km_Rate";
    "Per_Minute_Rate"; "Trip_Duration_Minutes" ].

(** The column an encoder was called for. *)
Definition encoder_call_column (c : call) : option string :=
  match c with encoder_transform col _ => Some col | _ => None end.

End api.

(** * The client, [app.py] *)

Module app.

Definition API_URL : string := "http://localhost:8000/predict".

(** What [requests.post] returns: the status, the body as text, and what
    [response.json()] gives when the body is read as a JSON object. *)
Record Response : Type := {
  status_code : Z;
  text : string;
  json : exn + gmap string jvalue;
}.

(** A geocoding result. *)
Record Location : Type := {
  latitude : float;
  longitude : float;
}.

(** The services the client calls out to. *)
Class Outside : Type := {
  requests_post : string → list (string * jvalue) → exn + Response;
  geolocator_geocode : string → exn + option Location;
  geodesic_kilometers : float * float → float * float → exn + float;
}.

(** The map handed to [st_folium]. *)
Inductive MapChild : Type :=
  | Marker (location : float * float) (popup tooltip color icon : string)
  | PolyLine (locations : list (float * float)) (color : string) (weight : Z)
      (opacity : float) (popup : string).

Record Map : Type := {
  location : float * float;
  zoom_start : Z;
  children : list MapChild;
}.

(** What the script shows and the calls it makes, in order. *)
Inductive event : Type :=
  | st_spinner (text : string)
  | st_success (text : string)
  | st_markdown (text : string)
  | st_info (text : string)
  | st_error (text : string)
  | st_folium (m : Map)
  | post (url : string) (json : list (string * jvalue))
  | geocode (query : string).

(** [st.session_state.route_result] when it reports a success; the fields
    are the keys of the dictionary. *)
Module result.
Record RouteSuccess : Type := {
  from_location : string;
  to_location : string;
  distance_km : float;
  predicted_price : jvalue;
  currency : jvalue;
  map : Map;
  route_time : string;
  route_day : string;
  route_traffic : string;
  route_weather : string;
  route_duration : Z;
}.
End result.
Abbreviation RouteSuccess := result.RouteSuccess.

Inductive RouteResult : Type :=
  | route_success (r : RouteSuccess)
  | route_failure (error : string).

(** The session: [route_result], which lines 243-244 set to [None] until
    a route was computed, and the events so far. *)
Record Session : Type := {
  route_result : option RouteResult;
  trace : list event;
}.

Definition emit (ev : event) : M Session unit :=
  λ s, (inr tt, {| route_result := route_result s; trace := trace s ++ [ev] |}).

Definition set_route_result (r : RouteResult) : M Session unit :=
  λ s, (inr tt, {| route_result := Some r; trace := trace s |}).

Definition get_route_result : M Session (option RouteResult) :=
  λ s, (inr (route_result s), s).

(** [requests.post(url, json=data)] *)
Definition do_post `{Outside} (url : string) (data : list (string * jvalue))
    : M Session Response :=
  emit (post url data);; lift (requests_post url data).

(** [geolocator.geocode(query)] *)
Definition do_geocode `{Outside} (query : string) : M Session (option Location) :=
  emit (geocode query);; lift (geolocator_geocode query).

(** The line feed. *)
Definition NL : string :=
  String (Ascii.Ascii false true false true false false false false) "".

(** [sep.join(parts)] *)
Fixpoint join (sep : string) (parts : list string) : string :=
  match parts with
  | [] => ""
  | [x] => x
  | x :: rest => x +:+ sep +:+ join sep rest
  end.

(** ** Tab one: the basic prediction *)

(** The values of the widgets of the first tab. *)
Record BasicForm : Type := {
  trip_distance : float;
  time_of_day : string;
  day_of_week : string;
  passenger_count : Z;
  traffic_conditions : string;
  weather : string;
  base_fare : float;
  per_km_rate : float;
  per_minute_rate : float;
  trip_duration : Z;
}.

(** [trip_data], lines 128-139. *)
Definition basic_trip_data (f : BasicForm) : list (string * jvalue) :=
  [ ("Trip_Distance_km", JNum (trip_distance f));
    ("Time_of_Day", JStr (time_of_day f));
    ("Day_of_Week", JStr (day_of_week f));
    ("Passenger_Count", JNum (inject_Z (passenger_count f)));
    ("Traffic_Conditions", JStr (traffic_conditions f));
    ("Weather", JStr (weather f));
    ("Base_Fare", JNum (base_fare f));
    ("Per_Km_Rate", JNum (per_km_rate f));
    ("Per_Minute_Rate", JNum (per_minute_rate f));
    ("Trip_Duration_Minutes", JNum (inject_Z (trip_duration f))) ].

(** The text of [st.info], lines 153-160. *)
Definition basic_summary `{PyLib} (f : BasicForm) : string :=
  let ind := NL +:+ "                " in
  ind +:+ "**Trip Summary:**"
  +:+ ind +:+ "- Distance: " +:+ str_float (trip_distance f) +:+ " km"
  +:+ ind +:+ "- Duration: " +:+ pretty (trip_duration f) +:+ " minutes"
  +:+ ind +:+ "- Time: " +:+ time_of_day f +:+ ", " +:+ day_of_week f
  +:+ ind +:+ "- Traffic: " +:+ traffic_conditions f
  +:+ ind +:+ "- Weather: " +:+ weather f
  +:+ ind.

(** The handler of the "Predict Price" button, lines 127-167. *)
Definition basic_predict `{PyLib} `{Outside} (f : BasicForm) : M Session unit :=
  let trip_data := basic_trip_data f in
  try_except
    (emit (st_spinner "Calculating price...");;
     let* response := do_post API_URL trip_data in
     if decide (status_code response = 200%Z) then
       let* result := lift (json response) in
       let* predicted_price := lift (dict_getitem result "predicted_price") in
       emit (st_success "Prediction successful!");;
       emit (st_markdown "### Estimated Trip Price");;
       let* price := lift (json_format_2f predicted_price) in
       let* currency := lift (dict_getitem result "currency") in
       emit (st_markdown ("# " +:+ price +:+ " " +:+ json_str currency));;
       emit (st_info (basic_summary f))
     else
       emit (st_error ("Error: " +:+ pretty (status_code response))))
    (λ e, match e with
          | ConnectionError _ => emit (st_error "Cannot connect to backend API")
          | _ => emit (st_error ("Error: " +:+ str_exn e))
          end).

(** One run of the first tab. *)
Definition tab1 `{PyLib} `{Outside} (clicked : bool) (f : BasicForm)
    : M Session unit :=
  if clicked then basic_predict f else ret tt.

(** ** Tab two: the route-based prediction *)

(** The values of the widgets of the second tab. *)
Record RouteForm : Type := {
  from_location : string;
  to_location : string;
  route_time : string;
  route_day : string;
  route_passengers : Z;
  route_traffic : string;
  route_weather : string;
  route_base : float;
  route_km_rate : float;
  route_min_rate : float;
  route_duration : Z;
}.

(** [trip_data], lines 292-303. *)
Definition route_trip_data (f : RouteForm) (distance_km : float)
    : list (string * jvalue) :=
  [ ("Trip_Distance_km", JNum distance_km);
    ("Time_of_Day", JStr (route_time f));
    ("Day_of_Week", JStr (route_day f));
    ("Passenger_Count", JNum (inject_Z (route_passengers f)));
    ("Traffic_Conditions", JStr (route_traffic f));
    ("Weather", JStr (route_weather f));
    ("Base_Fare", JNum (route_base f));
    ("Per_Km_Rate", JNum (route_km_rate f));
    ("Per_Minute_Rate", JNum (route_min_rate f));
    ("Trip_Duration_Minutes", JNum (inject_Z (route_duration f))) ].

(** The map of lines 259-289. *)
Definition route_map `{PyLib} (f : RouteForm) (from_loc to_loc : Location)
    (distance_km : float) : Map :=
  let from_coords := (latitude from_loc, longitude from_loc) in
  let to_coords := (latitude to_loc, longitude to_loc) in
  let mid_lat := ((latitude from_loc + latitude to_loc) / 2)%Q in
  let mid_lon := ((longitude from_loc + longitude to_loc) / 2)%Q in
  {| location := (mid_lat, mid_lon);
     zoom_start := 6;
     children :=
       [ Marker from_coords ("From: " +:+ from_location f) "Start" "green" "play";
         Marker to_coords ("To: " +:+ to_location f) "Destination" "red" "stop";
         PolyLine [from_coords; to_coords] "blue" 3 (7 # 10)
           ("Distance: " +:+ format_2f distance_km +:+ " km") ] |}.

(** The failure messages of lines 334-338. *)
Definition not_found_messages (f : RouteForm) (from_loc to_loc : option Location)
    : list string :=
  match from_loc with
  | Some _ => []
  | None => ["Could not find location: " +:+ from_location f]
  end
  ++ match to_loc with
     | Some _ => []
     | None => ["Could not find location: " +:+ to_location f]
     end.

(** The handler of the "Calculate Route & Price" button, lines 246-349. *)
Definition route_predict `{PyLib} `{Outside} (f : RouteForm) : M Session unit :=
  try_except
    (emit (st_spinner ("Geocoding " +:+ from_location f +:+ " and "
                         +:+ to_location f +:+ "..."));;
     let* from_loc := do_geocode (from_location f) in
     let* to_loc := do_geocode (to_location f) in
     match from_loc, to_loc with
     | Some from_l, Some to_l =>
         let from_coords := (latitude from_l, longitude from_l) in
         let to_coords := (latitude to_l, longitude to_l) in
         let* distance_km := lift (geodesic_kilometers from_coords to_coords) in
         let m := route_map f from_l to_l distance_km in
         let trip_data := route_trip_data f distance_km in
         emit (st_spinner "Predicting price...");;
         let* response := do_post API_URL trip_data in
         if decide (status_code response = 200%Z) then
           let* result := lift (json response) in
           let* predicted_price := lift (dict_getitem result "predicted_price") in
           let* currency := lift (dict_getitem result "currency") in
           set_route_result (route_success
             {| result.from_location := from_location f;
                result.to_location := to_location f;
                result.distance_km := distance_km;
                result.predicted_price := predicted_price;
                result.currency := currency;
                result.map := m;
                result.route_time := route_time f;
                result.route_day := route_day f;
                result.route_traffic := route_traffic f;
                result.route_weather := route_weather f;
                result.route_duration := route_duration f |})
         else
           set_route_result
             (route_failure ("Prediction error: " +:+ pretty (status_code response)))
     | _, _ =>
         let error_msg := not_found_messages f from_loc to_loc in
         set_route_result (route_failure (join " | " error_msg))
     end)
    (λ e, set_route_result (route_failure (str_exn e))).

(** The text of [st.info], lines 366-374. *)
Definition route_summary `{PyLib} (r : RouteSuccess) : string :=
  let ind := NL +:+ "            " in
  ind +:+ "**Route Summary:**"
  +:+ ind +:+ "- From: " +:+ result.from_location r
  +:+ ind +:+ "- To: " +:+ result.to_location r
  +:+ ind +:+ "- Distance: " +:+ format_2f (result.distance_km r)
      +:+ " km (calculated from route)"
  +:+ ind +:+ "- Duration: " +:+ pretty (result.route_duration r) +:+ " minutes"
  +:+ ind +:+ "- Time: " +:+ result.route_time r +:+ ", " +:+ result.route_day r
  +:+ ind +:+ "- Traffic: " +:+ result.route_traffic r +:+ ", Weather: "
      +:+ result.route_weather r
  +:+ ind.

(** The display of the stored result, lines 352-376. *)
Definition route_display `{PyLib} : M Session unit :=
  let* stored := get_route_result in
  match stored with
  | None => ret tt
  | Some (route_success r) =>
      emit (st_success ("Found locations! Distance: "
                          +:+ format_2f (result.distance_km r) +:+ " km"));;
      emit (st_markdown "### 🗺️ Route Map");;
      emit (st_folium (result.map r));;
      emit (st_markdown "### Estimated Trip Price");;
      let* price := lift (json_format_2f (result.predicted_price r)) in
      emit (st_markdown ("# " +:+ price +:+ " " +:+ json_str (result.currency r)));;
      emit (st_info (route_summary r))
  | Some (route_failure error) => emit (st_error ("❌ " +:+ error))
  end.

(** ** Reading a trace *)

(** The event is the HTTP call to the prediction service. *)
Definition is_post (ev : event) : bool :=
  match ev with post _ _ => true | _ => false end.

(** The event shows a price: the markdown heading of lines 151 and 364. *)
Definition shows_price (ev : event) : bool :=
  match ev with st_markdown text => String.prefix "# " text | _ => false end.

(** The text an event puts on the page. *)
Definition event_text (ev : event) : option string :=
  match ev with
  | st_spinner t | st_success t | st_markdown t | st_info t | st_error t => Some t
  | st_folium _ | post _ _ | geocode _ => None
  end.

(** Some event of the trace shows the text, as it is. *)
Definition displays (t : string) (tr : list event) : bool :=
  existsb (λ ev, match event_text ev with
                 | Some shown => occurs_in t shown
                 | None => false
                 end) tr.

(** One run of the second tab: the handler when the button was clicked,
    then the display of whatever the session holds. *)
Definition tab2 `{PyLib} `{Outside} (clicked : bool) (f : RouteForm)
    : M Session unit :=
  (if clicked then route_predict f else ret tt);;
  route_display.

(** The event is a call out of the script, to the geocoder or to the
    prediction service. *)
Definition is_call (ev : event) : bool :=
  match ev with post _ _ | geocode _ => true | _ => false end.

(** The ranges of the widgets of the first tab, lines 40-123. *)
Definition basic_form_in_range (f : BasicForm) : Prop :=
  (1 # 10 <= trip_distance f)%Q ∧ (trip_distance f <= 100)%Q
  ∧ (1 <= passenger_count f)%Z ∧ (passenger_count f <= 10)%Z
  ∧ (1 # 10 <= base_fare f)%Q ∧ (base_fare f <= 20)%Q
  ∧ (1 # 10 <= per_km_rate f)%Q ∧ (per_km_rate f <= 10)%Q
  ∧ (1 # 100 <= per_minute_rate f)%Q ∧ (per_minute_rate f <= 5)%Q
  ∧ (1 <= trip_duration f)%Z ∧ (trip_duration f <= 300)%Z.

(** The [TripInput] that carries the values of the first tab. *)
Definition basic_trip (f : BasicForm) : api.TripInput := {|
  api.Trip_Distance_km := trip_distance f;
  api.Time_of_Day := time_of_day f;
  api.Day_of_Week := day_of_week f;
  api.Passenger_Count := inject_Z (passenger_count f);
  api.Traffic_Conditions := traffic_conditions f;
  api.Weather := weather f;
  api.Base_Fare := base_fare f;
  api.Per_Km_Rate := per_km_rate f;
  api.Per_Minute_Rate := per_minute_rate f;
  api.Trip_Duration_Minutes := inject_Z (trip_duration f)
|}.

(** The spinner of line 248. *)
Definition geocoding (f : RouteForm) : event :=
  st_spinner ("Geocoding " +:+ from_location f +:+ " and "
                +:+ to_location f +:+ "...").

(** The stored result of a route whose price was predicted. *)
Definition route_stored `{PyLib} (f : RouteForm) (from_loc to_loc : Location)
    (km : float) (price currency : jvalue) : RouteSuccess :=
  {| result.from_location := from_location f;
     result.to_location := to_location f;
     result.distance_km := km;
     result.predicted_price := price;
     result.currency := currency;
     result.map := route_map f from_loc to_loc km;
     result.route_time := route_time f;
     result.route_day := route_day f;
     result.route_traffic := route_traffic f;
     result.route_weather := route_weather f;
     result.route_duration := route_duration f |}.

End app.

(** * A reference deployment

    Concrete libraries, artifacts and requests on which the definitions
    above run; the statements below are instantiated on them. *)

Module reference.

(** The libraries: [repr] quotes, pydantic takes numbers for floats and
    strings for strings, a float prints as its fraction. *)
Definition py : PyLib := {|
  repr_str s := "'" +:+ s +:+ "'";
  str_float x := pretty (Qnum x) +:+ "/" +:+ pretty (Z.pos (Qden x));
  validate_float j := match j with JNum x => Some x | _ => None end;
  validate_str j := match j with JStr x => Some x | _ => None end;
  pandas_not_in_index keys cols := "None of " +:+ app.join ", " keys
                                     +:+ " are in the columns";
  format_2f x := pretty (Qnum (api.round x 2)) +:+ "e-2";
  json_format_2f j :=
    match j with
    | JNum x => inr (pretty (Qnum (api.round x 2)) +:+ "e-2")
    | _ => inl (ValueError "Unknown format code 'f'")
    end;
  json_str j := match j with JStr s => s | _ => "null" end
|}.

Definition encoder (classes : list string) : api.LabelEncoder :=
  {| api.classes_ := classes |}.

(** A scaler that halves every numerical cell. *)
Definition halve (df : api.DataFrame) : exn + list float :=
  inr (map (λ kv, match kv.2 with CFloat x => (x / 2)%Q | _ => 0%Q end) df).

(** A model that adds up the cells of the row. *)
Definition add_up (df : api.DataFrame) : exn + list float :=
  inr [foldr (λ kv acc, match kv.2 with
                        | CFloat x => (x + acc)%Q
                        | CInt z => (inject_Z z + acc)%Q
                        | CStr _ => acc
                        end) 0%Q df].

Definition artifacts : api.Globals := {|
  api.model := add_up;
  api.scaler := halve;
  api.label_encoders :=
    list_to_map
      [ ("Time_of_Day", encoder ["Afternoon"; "Evening"; "Morning"]);
        ("Day_of_Week", encoder ["Weekday"; "Weekend"]);
        ("Traffic_Conditions", encoder ["High"; "Low"; "Medium"]);
        ("Weather", encoder ["Clear"; "Fog"; "Rain"]) ];
  api.feature_info :=
    {| api.categorical_features :=
         ["Time_of_Day"; "Day_of_Week"; "Traffic_Conditions"; "Weather"];
       api.numerical_features :=
         ["Trip_Distance_km"; "Passenger_Count"; "Base_Fare"; "Per_Km_Rate";
          "Per_Minute_Rate"; "Trip_Duration_Minutes"] |}
|}.

Definition process : api.Process := {| api.globals := artifacts; api.calls := [] |}.

(** The example request of [TripInput.Config], with the distance and the
    time of day left open. *)
Definition request (distance : float) (time_of_day : string)
    : list (string * jvalue) :=
  [ ("Trip_Distance_km", JNum distance);
    ("Time_of_Day", JStr time_of_day);
    ("Day_of_Week", JStr "Weekday");
    ("Passenger_Count", JNum 2);
    ("Traffic_Conditions", JStr "Medium");
    ("Weather", JStr "Clear");
    ("Base_Fare", JNum (7 # 2));
    ("Per_Km_Rate", JNum (3 # 2));
    ("Per_Minute_Rate", JNum (3 # 10));
    ("Trip_Duration_Minutes", JNum 25) ].

Definition trip (time_of_day : string) : api.TripInput := {|
  api.Trip_Distance_km := 31 # 2;
  api.Time_of_Day := time_of_day;
  api.Day_of_Week := "Weekday";
  api.Passenger_Count := 2;
  api.Traffic_Conditions := "Medium";
  api.Weather := "Clear";
  api.Base_Fare := 7 # 2;
  api.Per_Km_Rate := 3 # 2;
  api.Per_Minute_Rate := 3 # 10;
  api.Trip_Duration_Minutes := 25
|}.

(** The row of [trip "Morning"] after the encoding loop, the part of it
    the scaler is given, and the row after scaling. *)
Definition encoded_row : api.DataFrame :=
  [ ("Trip_Distance_km", CFloat (31 # 2)); ("Time_of_Day", CInt 2);
    ("Day_of_Week", CInt 0); ("Passenger_Count", CFloat 2);
    ("Traffic_Conditions", CInt 2); ("Weather", CInt 0);
    ("Base_Fare", CFloat (7 # 2)); ("Per_Km_Rate", CFloat (3 # 2));
    ("Per_Minute_Rate", CFloat (3 # 10));
    ("Trip_Duration_Minutes", CFloat 25) ].

Definition numerical_part : api.DataFrame :=
  [ ("Trip_Distance_km", CFloat (31 # 2)); ("Passenger_Count", CFloat 2);
    ("Base_Fare", CFloat (7 # 2)); ("Per_Km_Rate", CFloat (3 # 2));
    ("Per_Minute_Rate", CFloat (3 # 10));
    ("Trip_Duration_Minutes", CFloat 25) ].

Definition scaled_row : api.DataFrame :=
  [ ("Trip_Distance_km", CFloat (31 # 4)); ("Time_of_Day", CInt 2);
    ("Day_of_Week", CInt 0); ("Passenger_Count", CFloat (2 # 2));
    ("Traffic_Conditions", CInt 2); ("Weather", CInt 0);
    ("Base_Fare", CFloat (7 # 4)); ("Per_Km_Rate", CFloat (3 # 4));
    ("Per_Minute_Rate", CFloat (3 # 20));
    ("Trip_Duration_Minutes", CFloat (25 # 2)) ].

(** The process after the encoder of the time of day was asked for
    "Midnight". *)
Definition after_midnight : api.Process :=
  api.called (api.encoder_transform "Time_of_Day" (CStr "Midnight")) process.

(** The double quote. *)
Definition DQ : string :=
  String (Ascii.Ascii false true false false false true false false) "".

(** The answer of the backend to a request with an unseen label. *)
Definition error_detail : string :=
  "Prediction error: y contains previously unseen labels: 'Midnight'".

Definition error_response : app.Response := {|
  app.status_code := 500;
  app.text := "{" +:+ DQ +:+ "detail" +:+ DQ +:+ ":" +:+ DQ +:+ error_detail
                +:+ DQ +:+ "}";
  app.json := inr {[ "detail" := JStr error_detail ]}
|}.

(** A geocoder that knows two cities, and a distance that stands in for
    the geodesic one. *)
Definition stockholm : app.Location :=
  {| app.latitude := 5933 # 100; app.longitude := 1807 # 100 |}.

Definition uppsala : app.Location :=
  {| app.latitude := 5986 # 100; app.longitude := 1764 # 100 |}.

Definition gazetteer (query : string) : exn + option app.Location :=
  if decide (query = "Stockholm") then inr (Some stockholm)
  else if decide (query = "Uppsala") then inr (Some uppsala)
  else inr None.

Definition flat_distance (a b : float * float) : exn + float :=
  inr ((Qabs (a.1 - b.1) + Qabs (a.2 - b.2)) * 111)%Q.

Definition stockholm_uppsala_km : float :=
  ((Qabs (app.latitude stockholm - app.latitude uppsala)
    + Qabs (app.longitude stockholm - app.longitude uppsala)) * 111)%Q.

(** A service that answers every request with the error above. *)
Definition failing_service : app.Outside := {|
  app.requests_post _ _ := inr error_response;
  app.geolocator_geocode := gazetteer;
  app.geodesic_kilometers := flat_distance
|}.

(** A service that cannot be reached. *)
Definition unreachable_service : app.Outside := {|
  app.requests_post _ _ := inl (ConnectionError "Connection refused");
  app.geolocator_geocode := gazetteer;
  app.geodesic_kilometers := flat_distance
|}.

(** The widgets at their initial values. *)
Definition basic_form : app.BasicForm := {|
  app.trip_distance := 31 # 2;
  app.time_of_day := "Morning";
  app.day_of_week := "Weekday";
  app.passenger_count := 2;
  app.traffic_conditions := "Medium";
  app.weather := "Clear";
  app.base_fare := 7 # 2;
  app.per_km_rate := 3 # 2;
  app.per_minute_rate := 3 # 10;
  app.trip_duration := 25
|}.

Definition route_form (from_location to_location : string) : app.RouteForm := {|
  app.from_location := from_location;
  app.to_location := to_location;
  app.route_time := "Morning";
  app.route_day := "Weekday";
  app.route_passengers := 2;
  app.route_traffic := "Medium";
  app.route_weather := "Clear";
  app.route_base := 7 # 2;
  app.route_km_rate := 3 # 2;
  app.route_min_rate := 3 # 10;
  app.route_duration := 180
|}.

Definition session : app.Session := {| app.route_result := None; app.trace := [] |}.

(** The outside with a given geocoder and a given answer of the
    prediction service. *)
Definition outside (geocoder : string → exn + option app.Location)
    (answer : exn + app.Response) : app.Outside := {|
  app.requests_post _ _ := answer;
  app.geolocator_geocode := geocoder;
  app.geodesic_kilometers := flat_distance
|}.

(** A 200 answer with the given members. *)
Definition ok_response (members : list (string * jvalue)) : app.Response := {|
  app.status_code := 200;
  app.text := "";
  app.json := inr (list_to_map members)
|}.

Definition price_members : list (string * jvalue) :=
  [ ("predicted_price", JNum (2790 # 100)); ("currency", JStr "SEK") ].

(** A geocoder that times out on every query. *)
Definition timing_out (query : string) : exn + option app.Location :=
  inl (OtherException "GeocoderTimedOut" "Service timed out").

(** A geocoder that times out on every query but "Stockholm". *)
Definition timing_out_later (query : string) : exn + option app.Location :=
  if decide (query = "Stockholm") then inr (Some stockholm)
  else inl (OtherException "GeocoderTimedOut" "Service timed out").

(** Artifacts without an encoder for the weather, with a numerical name
    that is no field, with a scaler of the wrong width, and with a model
    that returns nothing. *)
Definition without_weather_encoder : api.Globals := {|
  api.model := add_up;
  api.scaler := halve;
  api.label_encoders := delete "Weather" (api.label_encoders artifacts);
  api.feature_info := api.feature_info artifacts
|}.

Definition with_surge_column : api.Globals := {|
  api.model := add_up;
  api.scaler := halve;
  api.label_encoders := api.label_encoders artifacts;
  api.feature_info :=
    {| api.categorical_features :=
         api.categorical_features (api.feature_info artifacts);
       api.numerical_features := ["Trip_Distance_km"; "Surge_Multiplier"] |}
|}.

Definition with_narrow_scaler : api.Globals := {|
  api.model := add_up;
  api.scaler := λ _, inr [1%Q];
  api.label_encoders := api.label_encoders artifacts;
  api.feature_info := api.feature_info artifacts
|}.

Definition with_silent_model : api.Globals := {|
  api.model := λ _, inr [];
  api.scaler := halve;
  api.label_encoders := api.label_encoders artifacts;
  api.feature_info := api.feature_info artifacts
|}.

Definition process_of (g : api.Globals) : api.Process :=
  {| api.globals := g; api.calls := [] |}.


(** Bodies of a 200 answer: without a price, and with a price that is no
    number. *)
Definition currency_only : list (string * jvalue) := [ ("currency", JStr "SEK") ].

Definition price_in_words : list (string * jvalue) :=
  [ ("predicted_price", JStr "a lot"); ("currency", JStr "SEK") ].

(** The calls of the encoding loop on [trip "Morning"]. *)
Definition encoder_calls : list api.call :=
  [ api.encoder_transform "Time_of_Day" (CStr "Morning");
    api.encoder_transform "Day_of_Week" (CStr "Weekday");
    api.encoder_transform "Traffic_Conditions" (CStr "Medium");
    api.encoder_transform "Weather" (CStr "Clear") ].

End reference.

(** * Properties of the backend *)

Section frame_lemmas.
Import api.

Lemma df_cell_columns (col : string) (df : DataFrame) :
  is_Some (df_cell col df) ↔ col ∈ columns df.
Proof.
  induction df as [|[c v] df IH]; simpl.
  - split; [intros [? ?]; discriminate | intros Hin; inversion Hin].
  - destruct (decide (c = col)) as [->|Hne].
    + split; [intros _; apply list_elem_of_here | eauto].
    + rewrite IH. split; [apply list_elem_of_further|].
      intros Hin. apply elem_of_cons in Hin as [?|?]; congruence.
Qed.

Lemma df_setitem_columns (col : string) (v : cell) (df : DataFrame) :
  col ∈ columns df → columns (df_setitem col v df) = columns df.
Proof.
  induction df as [|[c w] df IH]; simpl; intros Hin.
  - inversion Hin.
  - destruct (decide (c = col)) as [->|Hne]; [done|].
    simpl. f_equal. apply IH.
    apply elem_of_cons in Hin as [?|?]; congruence.
Qed.

Lemma df_cell_setitem_eq (col : string) (v : cell) (df : DataFrame) :
  df_cell col (df_setitem col v df) = Some v.
Proof.
  induction df as [|[c w] df IH]; simpl.
  - by rewrite decide_True.
  - destruct (decide (c = col)) as [->|Hne]; simpl.
    + by rewrite decide_True.
    + by rewrite decide_False.
Qed.

Lemma df_cell_setitem_ne (c col : string) (v : cell) (df : DataFrame) :
  c ≠ col → df_cell c (df_setitem col v df) = df_cell c df.
Proof.
  intros Hne. induction df as [|[c' w] df IH]; simpl.
  - rewrite decide_False; congruence.
  - destruct (decide (c' = col)) as [->|Hne']; simpl.
    + rewrite !decide_False; congruence.
    + by rewrite IH.
Qed.

Context `{PyLib}.

(** An iteration of the encoding loop leaves the columns as they are. *)
Lemma encode_column_columns col df p df' p' :
  encode_column col df p = (inr df', p') → columns df' = columns df.
Proof.
  unfold encode_column. destruct (decide (col ∈ columns df)) as [Hin|Hout].
  - unfold bind, global, lift, invoke, ret, raise; simpl.
    destruct (dict_getitem _ col); simpl; [congruence|].
    destruct (df_getitem col df); simpl; [congruence|].
    destruct (le_transform _ _); simpl; [congruence|].
    intros [= <- <-]. by apply df_setitem_columns.
  - by intros [= <- <-].
Qed.

(** A name outside the columns costs the loop nothing. *)
Lemma encode_column_absent col df p :
  col ∉ columns df → encode_column col df p = (inr df, p).
Proof. intros Hout. unfold encode_column. by rewrite decide_False. Qed.

Lemma encode_columns_app pre post df p :
  encode_columns (pre ++ post) df p =
  match encode_columns pre df p with
  | (inr df', p') => encode_columns post df' p'
  | (inl e, p') => (inl e, p')
  end.
Proof.
  revert df p. induction pre as [|c pre IH]; intros df p; simpl; [done|].
  unfold bind. destruct (encode_column c df p) as [[e|df'] p']; [done|].
  apply IH.
Qed.

Lemma encode_columns_columns cols df p df' p' :
  encode_columns cols df p = (inr df', p') → columns df' = columns df.
Proof.
  revert df p. induction cols as [|c cols IH]; intros df p; simpl.
  - by intros [= <- <-].
  - unfold bind. destruct (encode_column c df p) as [[e|df1] p1] eqn:E; [done|].
    intros Hrest. rewrite (IH _ _ Hrest). by eapply encode_column_columns.
Qed.

End frame_lemmas.

Section scaling.
Import api.

Lemma assign_columns df kvs :
  Forall (λ kv, kv.1 ∈ columns df) kvs → columns (assign df kvs) = columns df.
Proof.
  induction kvs as [|[k x] kvs IH] using rev_ind; [done|].
  rewrite Forall_app, Forall_singleton. simpl. intros [Hkvs Hk].
  specialize (IH Hkvs).
  unfold assign. rewrite foldl_snoc. simpl. fold (assign df kvs).
  rewrite df_setitem_columns; by rewrite IH.
Qed.

Lemma assign_other df kvs c :
  c ∉ kvs.*1 → df_cell c (assign df kvs) = df_cell c df.
Proof.
  induction kvs as [|[k x] kvs IH] using rev_ind; [done|].
  rewrite fmap_app, elem_of_app. simpl. intros Hout.
  unfold assign. rewrite foldl_snoc. simpl. fold (assign df kvs).
  rewrite df_cell_setitem_ne.
  - apply IH. tauto.
  - intros ->. apply Hout. right. apply list_elem_of_here.
Qed.

Lemma assign_named df kvs c :
  c ∈ kvs.*1 →
  ∃ i x, kvs !! i = Some (c, x) ∧ df_cell c (assign df kvs) = Some (CFloat x).
Proof.
  induction kvs as [|[k x] kvs IH] using rev_ind; [intros Hin; inversion Hin|].
  rewrite fmap_app, elem_of_app. simpl. intros Hin.
  unfold assign. rewrite foldl_snoc. simpl. fold (assign df kvs).
  destruct (decide (c = k)) as [->|Hne].
  - exists (length kvs), x. split; [|apply df_cell_setitem_eq].
    rewrite lookup_app_r, Nat.sub_diag; done.
  - destruct Hin as [Hin|Hin]; [|apply list_elem_of_singleton in Hin; done].
    destruct (IH Hin) as (i & y & Hi & Hc). exists i, y. split.
    + by apply lookup_app_l_Some.
    + by rewrite df_cell_setitem_ne.
Qed.

End scaling.

Section pipeline_steps.
Import api.
Context `{PyLib}.

(** C10. In step 2, a name of feature_info's categorical list that is
    not among the row's columns is skipped: the iteration returns the
    row as it was, raises nothing and calls no encoder, so the loop runs
    as if the name were not in the list. *)
Theorem absent_categorical_is_skipped
    (pre post : list string) (col : string) (df : DataFrame) (p : Process) :
  col ∉ columns df →
  encode_column col df p = (inr df, p)
  ∧ encode_columns (pre ++ col :: post) df p
    = encode_columns (pre ++ post) df p.
Proof.
  intros Hout. split; [by apply encode_column_absent|].
  rewrite !encode_columns_app.
  destruct (encode_columns pre df p) as [[e|df'] p'] eqn:Hpre; [done|].
  simpl. unfold bind. rewrite encode_column_absent; [done|].
  by rewrite (encode_columns_columns _ _ _ _ _ Hpre).
Qed.

(** C7. In step 3 the scaler is given exactly the columns named in
    feature_info's numerical list, in that order and with the values of
    the row; after the step each of these columns holds an output of the
    scaler, every other column (so every encoded categorical column)
    holds the value it had after step 2, and the columns are in the
    order they were in. *)
Theorem scaling_touches_numerical_columns_only
    (df df' : DataFrame) (p p' : Process) :
  scale_columns df p = (inr df', p') →
  let nums := numerical_features (feature_info (globals p)) in
  ∃ (sub : DataFrame) (scaled : list float),
    columns sub = nums
    ∧ (∀ c v, (c, v) ∈ sub → df_cell c df = Some v)
    ∧ scaler (globals p) sub = inr scaled
    ∧ calls p' = calls p ++ [scaler_transform sub]
    ∧ (∀ c, c ∈ nums →
         ∃ i x, nums !! i = Some c ∧ scaled !! i = Some x
                ∧ df_cell c df' = Some (CFloat x))
    ∧ (∀ c, c ∉ nums → df_cell c df' = df_cell c df)
    ∧ columns df' = columns df.
Proof.
  unfold scale_columns, bind, global, lift, invoke, ret, raise. simpl.
  unfold df_getitem_list.
  destruct (mapM _ _) as [sub|] eqn:Hsub; simpl; [|by intros [=]].
  destruct (scaler (globals p) sub) as [e|scaled] eqn:Hsc; simpl;
    [by intros [=]|].
  unfold df_setitem_list.
  revert Hsub. generalize (numerical_features (feature_info (globals p))).
  intros nums Hsub.
  destruct (decide (length scaled = length nums)) as [Hlen|]; simpl;
    [|by intros [=]].
  intros [= <- <-]. simpl.
  apply mapM_Some in Hsub.
  assert (Hcols : columns sub = nums).
  { clear -Hsub. induction Hsub as [|k [k' v] ks sub' Hk _ IH]; [done|].
    unfold columns in *. simpl. destruct (df_cell k df); [|done].
    injection Hk as -> _. by f_equal. }
  assert (Hin : Forall (λ k, k ∈ columns df) nums).
  { clear -Hsub. induction Hsub as [|k kv ks sub' Hk _ IH]; constructor; [|done].
    apply df_cell_columns. destruct (df_cell k df); [eauto|done]. }
  assert (Hfst : (zip nums scaled).*1 = nums) by (apply fst_zip; lia).
  exists sub, scaled. repeat split; [done| |done| | |].
  - clear -Hsub. intros c v Hcv.
    induction Hsub as [|k kv ks sub' Hk _ IH]; [inversion Hcv|].
    apply elem_of_cons in Hcv as [<-|?]; [|by apply IH].
    destruct (df_cell k df) eqn:Hcell; by simplify_eq/=.
  - intros c Hc.
    destruct (assign_named df (zip nums scaled) c) as (i & x & Hi & Hcell);
      [by rewrite Hfst|].
    apply lookup_zip_Some in Hi as [? ?]. by exists i, x.
  - intros c Hc. apply assign_other. by rewrite Hfst.
  - apply assign_columns. rewrite Forall_forall in Hin.
    apply Forall_forall. intros [k x] Hkx. simpl. apply Hin.
    rewrite <- Hfst. by apply (list_elem_of_fmap_2 fst _ (k, x)).
Qed.

End pipeline_steps.

Section validation.
Import api.
Context `{PyLib}.

Lemma float_gt_false x limit : (x <= limit)%Q → float_gt x limit = false.
Proof.
  intros Hle. unfold float_gt. destruct (limit ?= x)%Q eqn:E; try done.
  apply Qlt_alt in E. destruct (Qle_not_lt _ _ Hle E).
Qed.

Lemma float_le_false x limit : (limit < x)%Q → float_le x limit = false.
Proof.
  intros Hlt. unfold float_le. destruct (x ?= limit)%Q eqn:E; try done.
  - apply Qeq_alt in E. rewrite E in Hlt. destruct (Qlt_irrefl _ Hlt).
  - apply Qlt_alt in E. destruct (Qlt_irrefl x). by apply Qlt_trans with limit.
Qed.

Lemma float_field_not_gt le name body x :
  supplied_float body name = Some x → (x <= 0)%Q →
  float_field (Some 0%Q) le name (json_object body) = inl (not_gt 0).
Proof.
  unfold supplied_float, float_field. intros Hx Hle.
  apply bind_Some in Hx as (j & -> & ->). by rewrite float_gt_false.
Qed.

Lemma float_field_not_le name body x :
  supplied_float body name = Some x → (10 < x)%Q →
  float_field (Some 0%Q) (Some 10%Q) name (json_object body) = inl (not_le 10).
Proof.
  unfold supplied_float, float_field. intros Hx Hlt.
  apply bind_Some in Hx as (j & -> & ->). rewrite float_le_false by done.
  unfold float_gt. destruct (0 ?= x)%Q eqn:E; try done.
  - apply Qeq_alt in E. rewrite <- E in Hlt. done.
  - apply Qgt_alt in E. destruct (Qlt_irrefl x).
    apply Qlt_trans with 0%Q; [done|]. by apply Qlt_trans with 10%Q.
Qed.

(** A body with an error in some field does not become a [TripInput]. *)
Lemma TripInput_validate_errors d :
  validation_errors d ≠ [] → TripInput_validate d = inl (validation_errors d).
Proof.
  unfold TripInput_validate, validation_errors.
  repeat match goal with
         | |- context [match ?r with inl _ => _ | inr _ => _ end] =>
             destruct r; try done
         end.
Qed.


End validation.

Section rejection.
Import api.
Context `{PyLib}.

(** The error of a field is among the entries of the 422 body. *)
Local Ltac entry_found Hr :=
  unfold validation_errors; rewrite Hr; simpl;
  repeat first [ by apply list_elem_of_here
               | apply elem_of_app; right
               | apply list_elem_of_further ].

Lemma violation_entry body :
  violates_constraint body →
  ∃ name e, (name, e) ∈ validation_errors (json_object body).
Proof.
  intros [(name & x & Hname & Hx & Hle) | (x & Hx & Hlt)].
  - unfold positive_fields in Hname.
    repeat (apply elem_of_cons in Hname as [->|Hname]);
      [ | | | | | | by apply elem_of_nil in Hname ];
      eexists _, (not_gt 0);
      [ pose proof (float_field_not_gt None _ _ _ Hx Hle) as Hr
      | pose proof (float_field_not_gt (Some 10%Q) _ _ _ Hx Hle) as Hr
      | pose proof (float_field_not_gt None _ _ _ Hx Hle) as Hr
      | pose proof (float_field_not_gt None _ _ _ Hx Hle) as Hr
      | pose proof (float_field_not_gt None _ _ _ Hx Hle) as Hr
      | pose proof (float_field_not_gt None _ _ _ Hx Hle) as Hr ];
      entry_found Hr.
  - exists "Passenger_Count", (not_le 10).
    pose proof (float_field_not_le _ _ _ Hx Hlt) as Hr. entry_found Hr.
Qed.


End rejection.

Section request_order.
Import api.
Context `{PyLib}.

(** The parsed body holds, for every name, its last member. *)
Lemma json_object_list_to_map (request_body : list (string * jvalue)) :
  json_object request_body = list_to_map (reverse request_body).
Proof.
  unfold json_object.
  induction request_body as [|[k v] b IH] using rev_ind; [done|].
  by rewrite foldl_snoc, reverse_snoc, IH.
Qed.

Lemma json_object_permutation (b1 b2 : list (string * jvalue)) :
  NoDup b1.*1 → b1 ≡ₚ b2 → json_object b1 = json_object b2.
Proof.
  intros Hnd Hperm. rewrite !json_object_list_to_map.
  apply list_to_map_proper.
  - by rewrite fmap_reverse, reverse_Permutation.
  - by rewrite !reverse_Permutation.
Qed.

(** C5. Two request bodies with the same members, each name once, in
    different orders get the same response and leave the same process:
    the fields are read out of the parsed body by name, and the row is
    built in the order of the declaration of [TripInput]. *)
Theorem member_order_is_irrelevant
    (b1 b2 : list (string * jvalue)) (p : Process) :
  NoDup b1.*1 → b1 ≡ₚ b2 → post_predict b1 p = post_predict b2 p.
Proof.
  intros Hnd Hperm. unfold post_predict.
  by rewrite (json_object_permutation b1 b2 Hnd Hperm).
Qed.

End request_order.

Section read_only.
Import api.

Lemma reads_only_ret {A} (a : A) : reads_only (ret a).
Proof. intros g. exists (inr a), []. intros l. by rewrite app_nil_r. Qed.

Lemma reads_only_raise {A} (e : exn) : reads_only (raise (A := A) e).
Proof. intros g. exists (inl e), []. intros l. by rewrite app_nil_r. Qed.

Lemma reads_only_lift {A} (r : exn + A) : reads_only (lift r).
Proof. destruct r; [apply reads_only_raise | apply reads_only_ret]. Qed.

Lemma reads_only_global {A} (f : Globals → A) : reads_only (global f).
Proof. intros g. exists (inr (f g)), []. intros l. by rewrite app_nil_r. Qed.

Lemma reads_only_invoke {A} (c : call) (r : exn + A) : reads_only (invoke c r).
Proof.
  intros g. exists r, [c]. intros l. unfold invoke. simpl. by destruct r.
Qed.

Lemma reads_only_bind {A B} (m : M Process A) (k : A → M Process B) :
  reads_only m → (∀ a, reads_only (k a)) → reads_only (bind m k).
Proof.
  intros Hm Hk g. destruct (Hm g) as (r & cs & Hrun).
  destruct r as [e|a].
  - exists (inl e), cs. intros l. unfold bind. by rewrite Hrun.
  - destruct (Hk a g) as (r' & cs' & Hrun').
    exists r', (cs ++ cs'). intros l. unfold bind.
    by rewrite Hrun, Hrun', app_assoc.
Qed.

Lemma reads_only_try_except {A} (m : M Process A) (h : exn → M Process A) :
  reads_only m → (∀ e, reads_only (h e)) → reads_only (try_except m h).
Proof.
  intros Hm Hh g. destruct (Hm g) as (r & cs & Hrun).
  destruct r as [e|a].
  - destruct (Hh e g) as (r' & cs' & Hrun').
    exists r', (cs ++ cs'). intros l. unfold try_except.
    by rewrite Hrun, Hrun', app_assoc.
  - exists (inr a), cs. intros l. unfold try_except. by rewrite Hrun.
Qed.

Context `{PyLib}.

Lemma reads_only_encode_column col df : reads_only (encode_column col df).
Proof.
  unfold encode_column. destruct (decide _); [|apply reads_only_ret].
  repeat first [ apply reads_only_bind; [|intros ?] | apply reads_only_global
               | apply reads_only_lift | apply reads_only_invoke
               | apply reads_only_ret ].
Qed.

Lemma reads_only_encode_columns cols df : reads_only (encode_columns cols df).
Proof.
  revert df. induction cols as [|c cols IH]; intros df; simpl.
  - apply reads_only_ret.
  - apply reads_only_bind; [apply reads_only_encode_column | done].
Qed.

Lemma reads_only_scale_columns df : reads_only (scale_columns df).
Proof.
  unfold scale_columns.
  repeat first [ apply reads_only_bind; [|intros ?] | apply reads_only_global
               | apply reads_only_lift | apply reads_only_invoke ].
Qed.

Lemma reads_only_predict_price trip : reads_only (predict_price trip).
Proof.
  unfold predict_price, predict_price_body.
  apply reads_only_try_except; [|intros ?; apply reads_only_raise].
  repeat first [ apply reads_only_bind; [|intros ?] | apply reads_only_global
               | apply reads_only_lift | apply reads_only_invoke
               | apply reads_only_ret | apply reads_only_encode_columns
               | apply reads_only_scale_columns ].
Qed.

(** The route as a whole: its response depends on the globals alone,
    and it leaves them as they are. *)
Lemma post_predict_reads_only request_body g :
  ∃ resp cs, ∀ l,
    post_predict request_body {| globals := g; calls := l |}
    = (resp, {| globals := g; calls := l ++ cs |}).
Proof.
  unfold post_predict.
  destruct (TripInput_validate _) as [errors|trip].
  - eexists _, []. intros l. by rewrite app_nil_r.
  - destruct (reads_only_predict_price trip g) as (r & cs & Hrun).
    destruct r as [e|r].
    + destruct e; eexists _, cs; intros l; by rewrite Hrun.
    + eexists _, cs; intros l; by rewrite Hrun.
Qed.

(** C6. With the artifacts fixed, a second call with the same request
    body, made on the process the first call left behind, gets the
    response the first one got (the same price and currency, or the
    same error); and after each call the model, the scaler, the
    encoders and feature_info are the ones that were loaded. *)
Theorem predict_is_deterministic_and_leaves_artifacts
    (request_body : list (string * jvalue)) (p : Process) :
  let first := post_predict request_body p in
  let second := post_predict request_body first.2 in
  second.1 = first.1
  ∧ globals first.2 = globals p
  ∧ globals second.2 = globals p.
Proof.
  destruct p as [g l]. simpl.
  destruct (post_predict_reads_only request_body g) as (resp & cs & Hrun).
  rewrite Hrun. simpl. by rewrite Hrun.
Qed.

End read_only.

Section rounding.
Import api.

(** The nearest integer is within a half. *)
Lemma round_half_even_near (q : Q) :
  (Qabs (inject_Z (round_half_even q) - q) <= 1 # 2)%Q.
Proof.
  unfold round_half_even.
  pose proof (Qfloor_le q) as Hlo. pose proof (Qlt_floor q) as Hhi.
  rewrite inject_Z_plus in Hhi. change (inject_Z 1) with 1%Q in Hhi.
  apply Qabs_Qle_condition.
  destruct (q - inject_Z (Qfloor q) ?= 1 # 2)%Q eqn:E.
  - apply Qeq_alt in E. destruct (Z.even (Qfloor q));
      rewrite ?inject_Z_plus; change (inject_Z 1) with 1%Q; split; lra.
  - apply Qlt_alt in E. split; lra.
  - apply Qgt_alt in E. rewrite inject_Z_plus.
    change (inject_Z 1) with 1%Q. split; lra.
Qed.

(** [round(x, 2)] is a number of hundredths, and the nearest one. *)
Lemma round_2_decimals (x : float) :
  ∃ k : Z, round x 2 = (k # 100)%Q ∧ (Qabs (round x 2 - x) <= 1 # 200)%Q.
Proof.
  exists (round_half_even (x * 100)). split; [done|].
  unfold round. change (pow10 2) with 100%positive.
  pose proof (round_half_even_near (x * inject_Z 100)) as Hnear.
  apply Qabs_Qle_condition in Hnear. apply Qabs_Qle_condition.
  rewrite (Qmake_Qdiv (round_half_even _) 100). destruct Hnear as [Hlo Hhi].
  set (k := inject_Z (round_half_even (x * inject_Z 100))) in *.
  change (inject_Z (Z.pos 100)) with 100%Q in *. clearbody k.
  unfold Qdiv. change (/ 100)%Q with (1 # 100)%Q. split; lra.
Qed.

End rounding.

Section outcomes.
Import api.
Context `{PyLib}.

(** One iteration of the encoding loop, run. *)
Lemma encode_column_run col df p :
  encode_column col df p =
  if decide (col ∈ columns df) then
    match dict_getitem (label_encoders (globals p)) col with
    | inl e => (inl e, p)
    | inr encoder =>
        match df_getitem col df with
        | inl e => (inl e, p)
        | inr x =>
            match le_transform encoder x with
            | inl e => (inl e, called (encoder_transform col x) p)
            | inr code =>
                (inr (df_setitem col (CInt code) df),
                 called (encoder_transform col x) p)
            end
        end
    end
  else (inr df, p).
Proof.
  unfold encode_column. destruct (decide _); [|done].
  unfold bind, global, lift, invoke, ret, raise. simpl.
  destruct (dict_getitem _ col); [done|]. simpl.
  destruct (df_getitem col df); [done|]. simpl.
  by destruct (le_transform _ _).
Qed.

(** The loop calls encoders only and leaves the globals alone. *)
Lemma encode_columns_calls cols df p r p' :
  encode_columns cols df p = (r, p') →
  ∃ cs, p' = {| globals := globals p; calls := calls p ++ cs |}
        ∧ Forall (λ c, is_encoder_call c = true) cs.
Proof.
  revert df p. induction cols as [|c cols IH]; intros df p; simpl.
  - intros [= <- <-]. exists []. rewrite app_nil_r. by destruct p.
  - unfold bind. rewrite encode_column_run.
    assert (Hp : p = {| globals := globals p; calls := calls p ++ [] |})
      by (rewrite app_nil_r; by destruct p).
    destruct (decide _); [|intros Hrest; by apply IH in Hrest].
    destruct (dict_getitem _ c);
      [intros [= <- <-]; by exists []|].
    destruct (df_getitem c df) as [|x];
      [intros [= <- <-]; by exists []|].
    destruct (le_transform _ _).
    + intros [= <- <-]. exists [encoder_transform c x]. by repeat constructor.
    + intros Hrest. apply IH in Hrest as (cs & -> & Hcs). simpl.
      exists (encoder_transform c x :: cs). split; [|by constructor].
      by rewrite <- app_assoc.
Qed.

(** An iteration for another column does not touch this one. *)
Lemma encode_column_other c col df p df' p' :
  c ≠ col → encode_column c df p = (inr df', p') →
  df_cell col df' = df_cell col df.
Proof.
  intros Hne. rewrite encode_column_run.
  destruct (decide _); [|by intros [= <- <-]].
  destruct (dict_getitem _ c); [by intros [=]|].
  destruct (df_getitem c df); [by intros [=]|].
  destruct (le_transform _ _); [by intros [=]|].
  intros [= <- <-]. by apply df_cell_setitem_ne.
Qed.

Lemma label_code_None label classes :
  label ∉ classes → label_code label classes = None.
Proof.
  induction classes as [|c cs IH]; [done|]. simpl.
  rewrite not_elem_of_cons. intros [Hne Hout].
  rewrite decide_False by done. by rewrite IH.
Qed.

(** The iteration for a column whose label the encoder has not seen. *)
Lemma encode_column_unseen col label encoder df p :
  df_cell col df = Some (CStr label) →
  label_encoders (globals p) !! col = Some encoder →
  label ∉ classes_ encoder →
  encode_column col df p =
  (inl (ValueError ("y contains previously unseen labels: " +:+ repr_str label)),
   called (encoder_transform col (CStr label)) p).
Proof.
  intros Hcell Henc Hout. rewrite encode_column_run.
  rewrite decide_True by (apply df_cell_columns; rewrite Hcell; eauto).
  unfold dict_getitem, df_getitem, le_transform. rewrite Henc, Hcell. simpl.
  by rewrite label_code_None.
Qed.

(** The loop fails as soon as it has such a column in its list. *)
Lemma encode_columns_unseen cols col label encoder df p :
  col ∈ cols →
  df_cell col df = Some (CStr label) →
  label_encoders (globals p) !! col = Some encoder →
  label ∉ classes_ encoder →
  ∃ e p', encode_columns cols df p = (inl e, p').
Proof.
  intros Hin Hcell Henc Hout. revert df p Hcell Henc.
  induction cols as [|c cols IH]; intros df p Hcell Henc;
    [by apply elem_of_nil in Hin|].
  simpl. unfold bind. destruct (decide (c = col)) as [->|Hne].
  - rewrite (encode_column_unseen _ _ _ _ _ Hcell Henc Hout). eauto.
  - apply elem_of_cons in Hin as [?|Hin]; [congruence|].
    destruct (encode_column c df p) as [[e|df1] p1] eqn:Hc; [eauto|].
    apply (IH Hin).
    + by rewrite (encode_column_other _ _ _ _ _ _ Hne Hc).
    + pose proof (encode_columns_calls [c] df p (inr df1) p1) as Hg.
      simpl in Hg. unfold bind in Hg. rewrite Hc in Hg.
      destruct (Hg eq_refl) as (cs & -> & _). done.
Qed.

(** The body of the [try] block when the loop fails. *)
Lemma predict_price_body_encode_fails trip p e p' :
  encode_columns (categorical_features (feature_info (globals p)))
    (TripInput_dict trip) p = (inl e, p') →
  predict_price_body trip p = (inl e, p').
Proof.
  intros Henc. unfold predict_price_body, bind, global. simpl. by rewrite Henc.
Qed.

(** The route, once the body is validated. *)
Lemma post_predict_validated request_body trip p :
  TripInput_validate (json_object request_body) = inr trip →
  post_predict request_body p =
  match predict_price_body trip p with
  | (inr r, p') => ({| status_code := 200; body := prediction_json r |}, p')
  | (inl e, p') =>
      ({| status_code := 500;
          body := detail_json ("Prediction error: " +:+ str_exn e) |}, p')
  end.
Proof.
  intros Hv. unfold post_predict, predict_price, try_except, raise.
  rewrite Hv. by destruct (predict_price_body trip p) as [[e|r] p'].
Qed.

End outcomes.

Section responses.
Import api.
Context `{PyLib}.

Lemma reads_only_globals {A} (m : M Process A) p r p' :
  reads_only m → m p = (r, p') → globals p' = globals p.
Proof.
  intros Hm. destruct p as [g l]. destruct (Hm g) as (r0 & cs & Hrun).
  rewrite Hrun. by intros [= <- <-].
Qed.

(** A run of the [try] block that returns: the model was called last,
    and the result is its first output, rounded, in SEK. *)
Lemma predict_price_body_returns trip p r p' :
  predict_price_body trip p = (inr r, p') →
  ∃ df x rest p2,
    globals p2 = globals p
    ∧ p' = called (model_predict df) p2
    ∧ model (globals p) df = inr (x :: rest)
    ∧ r = PredictionResponse_init (round x 2).
Proof.
  unfold predict_price_body, bind, global. simpl.
  destruct (encode_columns _ _ p) as [[e|df1] p1] eqn:Henc; [by intros [=]|].
  destruct (scale_columns df1 p1) as [[e|df2] p2] eqn:Hsc; [by intros [=]|].
  assert (Hg : globals p2 = globals p).
  { rewrite (reads_only_globals _ _ _ _ (reads_only_scale_columns df1) Hsc).
    apply (reads_only_globals _ _ _ _ (reads_only_encode_columns _ _) Henc). }
  unfold invoke, lift, ret, raise. rewrite Hg.
  destruct (model (globals p) df2) as [e|out] eqn:Hm; [by intros [=]|].
  destruct out as [|x rest]; simpl; [by intros [=]|].
  intros [= <- <-]. by exists df2, x, rest, p2.
Qed.

(** C2. For a request body that passes validation, an exception raised
    anywhere in the [try] block (building the row, encoding, scaling,
    the call of the model, taking its first output) gives the response
    HTTP 500 whose detail is "Prediction error: " followed by [str] of
    that exception; the response carries no prediction. *)
Theorem pipeline_exception_is_http_500
    (request_body : list (string * jvalue)) (trip : TripInput)
    (p p' : Process) (e : exn) :
  TripInput_validate (json_object request_body) = inr trip →
  predict_price_body trip p = (inl e, p') →
  post_predict request_body p
  = ({| status_code := 500;
        body := detail_json ("Prediction error: " +:+ str_exn e) |}, p').
Proof.
  intros Hv Hbody. by rewrite (post_predict_validated _ _ _ Hv), Hbody.
Qed.

(** C4. A response with status 200 carries the first value of the array
    the model returned, rounded to two decimals, and the currency
    "SEK": the price is a whole number of hundredths and is within half
    a hundredth of the model's value. The model was the last artifact
    called, on the encoded and scaled row. *)
Theorem successful_response_is_rounded_price_in_SEK
    (request_body : list (string * jvalue)) (p p' : Process)
    (resp : response) :
  post_predict request_body p = (resp, p') →
  status_code resp = 200%Z →
  ∃ (df : DataFrame) (x : float) (rest : list float) (k : Z),
    last (calls p') = Some (model_predict df)
    ∧ model (globals p) df = inr (x :: rest)
    ∧ body resp = prediction_json
                    {| predicted_price := round x 2; currency := "SEK" |}
    ∧ round x 2 = (k # 100)%Q
    ∧ (Qabs (round x 2 - x) <= 1 # 200)%Q.
Proof.
  intros Hrun Hstatus.
  destruct (TripInput_validate (json_object request_body)) as [errs|trip] eqn:Hv.
  - unfold post_predict in Hrun. rewrite Hv in Hrun.
    injection Hrun as <- _. done.
  - rewrite (post_predict_validated _ _ _ Hv) in Hrun.
    destruct (predict_price_body trip p) as [[e|r] p1] eqn:Hbody.
    + injection Hrun as <- _. done.
    + injection Hrun as <- <-.
      apply predict_price_body_returns in Hbody
        as (df & x & rest & p2 & Hg & -> & Hm & ->).
      destruct (round_2_decimals x) as (k & Hk & Hnear).
      exists df, x, rest, k. simpl. by rewrite last_snoc.
Qed.

(** C1, as the code has it. A validated request with a label outside
    the vocabulary of its field's encoder, the field being in
    feature_info's categorical list, gets HTTP 500 with the detail
    "Prediction error: " and the message of the first exception of the
    encoding loop; only encoders were called, so no row with a code for
    that label reaches the scaler or the model, and no prediction is
    returned. When the categorical fields listed before it were encoded
    without an exception, the message is the encoder's, "y contains
    previously unseen labels: " followed by [repr] of the label: it
    names the value and not the field. *)
Theorem unseen_label_fails_with_encoder_message
    (request_body : list (string * jvalue)) (trip : TripInput)
    (p : Process) (col label : string) (encoder : LabelEncoder) :
  TripInput_validate (json_object request_body) = inr trip →
  col ∈ categorical_features (feature_info (globals p)) →
  df_cell col (TripInput_dict trip) = Some (CStr label) →
  label_encoders (globals p) !! col = Some encoder →
  label ∉ classes_ encoder →
  ∃ (msg : string) (cs : list call),
    post_predict request_body p
    = ({| status_code := 500;
          body := detail_json ("Prediction error: " +:+ msg) |},
       {| globals := globals p; calls := calls p ++ cs |})
    ∧ Forall (λ c, is_encoder_call c = true) cs
    ∧ (∀ pre post df1 p1,
         categorical_features (feature_info (globals p)) = pre ++ col :: post →
         encode_columns pre (TripInput_dict trip) p = (inr df1, p1) →
         msg = "y contains previously unseen labels: " +:+ repr_str label).
Proof.
  intros Hv Hin Hcell Henc Hout.
  destruct (encode_columns_unseen _ _ _ _ _ p Hin Hcell Henc Hout)
    as (e & p' & Hfail).
  destruct (encode_columns_calls _ _ _ _ _ Hfail) as (cs & -> & Hcs).
  exists (str_exn e), cs. split; [|split; [done|]].
  - rewrite (post_predict_validated _ _ _ Hv).
    by rewrite (predict_price_body_encode_fails _ _ _ _ Hfail).
  - intros pre post df1 p1 Hsplit Hpre.
    rewrite Hsplit, encode_columns_app, Hpre in Hfail. simpl in Hfail.
    unfold bind in Hfail.
    assert (Hnotin : col ∉ pre).
    { intros Hpre_in.
      destruct (encode_columns_unseen _ _ _ _ _ p Hpre_in Hcell Henc Hout)
        as (e' & p'' & Hfail'). congruence. }
    assert (Hcell1 : df_cell col df1 = Some (CStr label)).
    { rewrite <- Hcell. clear -Hpre Hnotin. revert Hpre Hnotin.
      generalize (TripInput_dict trip). revert p.
      induction pre as [|c pre IH]; intros p df; simpl.
      - by intros [= <- <-].
      - unfold bind.
        destruct (encode_column c df p) as [[e|df0] p0] eqn:Hc; [by intros [=]|].
        rewrite not_elem_of_cons. intros Hrest [Hne Hnotin].
        rewrite (IH _ _ Hrest Hnotin).
        by apply (encode_column_other c col df p df0 p0). }
    assert (Henc1 : label_encoders (globals p1) !! col = Some encoder).
    { destruct (encode_columns_calls _ _ _ _ _ Hpre) as (cs1 & -> & _). done. }
    rewrite (encode_column_unseen _ _ _ _ _ Hcell1 Henc1 Hout) in Hfail.
    by injection Hfail as <- _.
Qed.

End responses.

(** * Properties of the client *)

Section texts.

Lemma append_assoc (a b c : string) : (a +:+ b) +:+ c = a +:+ b +:+ c.
Proof.
  induction a as [|x a IH]; [done|].
  change (String x ((a +:+ b) +:+ c) = String x (a +:+ b +:+ c)).
  by rewrite IH.
Qed.

Lemma prefix_append (n rest : string) : String.prefix n (n +:+ rest) = true.
Proof.
  induction n as [|a n IH]; [by destruct rest|].
  change (String a n +:+ rest) with (String a (n +:+ rest)). simpl.
  destruct (Ascii.ascii_dec a a); [done|congruence].
Qed.

Lemma occurs_in_prefix (n hay : string) :
  String.prefix n hay = true → occurs_in n hay = true.
Proof. intros Hp. destruct hay; cbn [occurs_in]; by rewrite Hp. Qed.

Lemma occurs_in_append (n before hay : string) :
  occurs_in n hay = true → occurs_in n (before +:+ hay) = true.
Proof.
  intros Hocc. induction before as [|a before IH]; [done|].
  change (String a before +:+ hay) with (String a (before +:+ hay)).
  cbn [occurs_in]. rewrite IH. apply orb_true_r.
Qed.

(** A text made around another one holds it. *)
Lemma occurs_in_middle (n before after : string) :
  occurs_in n (before +:+ n +:+ after) = true.
Proof. apply occurs_in_append, occurs_in_prefix, prefix_append. Qed.

Lemma occurs_in_end (n before : string) : occurs_in n (before +:+ n) = true.
Proof.
  apply occurs_in_append, occurs_in_prefix.
  induction n as [|a n IH]; simpl; [done|].
  destruct (Ascii.ascii_dec a a); [done|congruence].
Qed.

End texts.

Section client.
Import app.
Context `{PyLib} `{Outside}.

(** C8. In route mode, when both geocoding calls return and at least
    one of them finds nothing, the handler stores a failure whose
    message has one "Could not find location: <name>" per unresolved
    place, joined by " | "; the page shows that message as an error;
    and the only calls made are the two geocoding calls: the predict
    request is not sent. *)
Theorem unresolved_place_is_reported_without_predict
    (f : RouteForm) (s : Session) (from_loc to_loc : option Location) :
  geolocator_geocode (from_location f) = inr from_loc →
  geolocator_geocode (to_location f) = inr to_loc →
  from_loc = None ∨ to_loc = None →
  let message := join " | " (not_found_messages f from_loc to_loc) in
  let shown :=
    [ st_spinner ("Geocoding " +:+ from_location f +:+ " and "
                    +:+ to_location f +:+ "...");
      geocode (from_location f);
      geocode (to_location f);
      st_error ("❌ " +:+ message) ] in
  tab2 true f s
  = (inr tt, {| route_result := Some (route_failure message);
                trace := trace s ++ shown |})
  ∧ existsb is_post shown = false
  ∧ (from_loc = None → occurs_in (from_location f) message = true)
  ∧ (to_loc = None → occurs_in (to_location f) message = true).
Proof.
  intros Hfrom Hto Hnone. simpl. split; [|split; [done|]].
  - unfold tab2, route_predict, route_display, try_except, bind, do_geocode,
      emit, lift, ret, raise, set_route_result, get_route_result. simpl.
    rewrite Hfrom, Hto. simpl.
    destruct from_loc, to_loc; simpl; rewrite <- ?app_assoc; simpl;
      try done; by destruct Hnone.
  - unfold not_found_messages.
    split; [intros ->; destruct to_loc | intros ->; destruct from_loc];
      cbn [join app].
    + apply occurs_in_end.
    + rewrite append_assoc. apply occurs_in_middle.
    + apply occurs_in_end.
    + apply occurs_in_append, occurs_in_append, occurs_in_end.
Qed.

Local Ltac run_handler :=
  unfold tab1, tab2, basic_predict, route_predict, route_display, try_except,
    bind, do_post, do_geocode, emit, lift, ret, raise, set_route_result,
    get_route_result; simpl.

(** C9, as the code has it. When the prediction service answers with a
    status other than 200, the client shows the status code and nothing
    of the body of the response: "Error: <status>" on the first tab,
    "Prediction error: <status>" behind the cross mark on the second.
    When the service cannot be reached, the first tab shows "Cannot
    connect to backend API" and the second the message of the
    exception. In all four cases no price is shown. *)
Theorem failed_predict_shows_status_or_connection_message :
  (∀ (f : BasicForm) (s : Session) (resp : Response),
     requests_post API_URL (basic_trip_data f) = inr resp →
     status_code resp ≠ 200%Z →
     let shown :=
       [ st_spinner "Calculating price...";
         post API_URL (basic_trip_data f);
         st_error ("Error: " +:+ pretty (status_code resp)) ] in
     tab1 true f s
     = (inr tt, {| route_result := route_result s; trace := trace s ++ shown |})
     ∧ existsb shows_price shown = false)
  ∧ (∀ (f : BasicForm) (s : Session) (msg : string),
       requests_post API_URL (basic_trip_data f) = inl (ConnectionError msg) →
       let shown :=
         [ st_spinner "Calculating price...";
           post API_URL (basic_trip_data f);
           st_error "Cannot connect to backend API" ] in
       tab1 true f s
       = (inr tt, {| route_result := route_result s; trace := trace s ++ shown |})
       ∧ existsb shows_price shown = false)
  ∧ (∀ (f : RouteForm) (s : Session) (from_loc to_loc : Location)
       (km : float) (resp : Response),
       geolocator_geocode (from_location f) = inr (Some from_loc) →
       geolocator_geocode (to_location f) = inr (Some to_loc) →
       geodesic_kilometers (latitude from_loc, longitude from_loc)
         (latitude to_loc, longitude to_loc) = inr km →
       requests_post API_URL (route_trip_data f km) = inr resp →
       status_code resp ≠ 200%Z →
       let message := "Prediction error: " +:+ pretty (status_code resp) in
       let shown :=
         [ st_spinner ("Geocoding " +:+ from_location f +:+ " and "
                         +:+ to_location f +:+ "...");
           geocode (from_location f);
           geocode (to_location f);
           st_spinner "Predicting price...";
           post API_URL (route_trip_data f km);
           st_error ("❌ " +:+ message) ] in
       tab2 true f s
       = (inr tt, {| route_result := Some (route_failure message);
                     trace := trace s ++ shown |})
       ∧ existsb shows_price shown = false)
  ∧ (∀ (f : RouteForm) (s : Session) (from_loc to_loc : Location)
       (km : float) (msg : string),
       geolocator_geocode (from_location f) = inr (Some from_loc) →
       geolocator_geocode (to_location f) = inr (Some to_loc) →
       geodesic_kilometers (latitude from_loc, longitude from_loc)
         (latitude to_loc, longitude to_loc) = inr km →
       requests_post API_URL (route_trip_data f km)
       = inl (ConnectionError msg) →
       let shown :=
         [ st_spinner ("Geocoding " +:+ from_location f +:+ " and "
                         +:+ to_location f +:+ "...");
           geocode (from_location f);
           geocode (to_location f);
           st_spinner "Predicting price...";
           post API_URL (route_trip_data f km);
           st_error ("❌ " +:+ msg) ] in
       tab2 true f s
       = (inr tt, {| route_result := Some (route_failure msg);
                     trace := trace s ++ shown |})
       ∧ existsb shows_price shown = false).
Proof.
  split; [|split; [|split]].
  - intros f s resp Hpost Hstatus. simpl. split; [|done].
    run_handler. rewrite Hpost. simpl.
    rewrite decide_False by done. simpl. by rewrite <- !app_assoc.
  - intros f s msg Hpost. simpl. split; [|done].
    run_handler. rewrite Hpost. simpl. by rewrite <- !app_assoc.
  - intros f s from_loc to_loc km resp Hfrom Hto Hkm Hpost Hstatus.
    simpl. split; [|done].
    run_handler. rewrite Hfrom, Hto. simpl. rewrite Hkm. simpl.
    rewrite Hpost. simpl.
    rewrite decide_False by done. simpl. by rewrite <- !app_assoc.
  - intros f s from_loc to_loc km msg Hfrom Hto Hkm Hpost.
    simpl. split; [|done].
    run_handler. rewrite Hfrom, Hto. simpl. rewrite Hkm. simpl.
    rewrite Hpost. simpl. by rewrite <- !app_assoc.
Qed.

End client.

(** * The statements on the reference deployment *)

Section on_reference.
Import reference.
#[local] Existing Instance py.

Lemma absent_categorical_is_skipped_witness :
  let df := api.TripInput_dict (trip "Morning") in
  ("Surge_Pricing" ∉ api.columns df)
  ∧ api.encode_column "Surge_Pricing" df process = (inr df, process)
  ∧ api.encode_columns (["Time_of_Day"] ++ "Surge_Pricing" :: ["Weather"])
      df process
    = api.encode_columns (["Time_of_Day"] ++ ["Weather"]) df process.
Proof.
  assert (Hout : "Surge_Pricing"
                 ∉ api.columns (api.TripInput_dict (trip "Morning"))).
  { apply (bool_decide_unpack _). vm_compute. exact I. }
  split; [exact Hout|].
  apply (absent_categorical_is_skipped ["Time_of_Day"] ["Weather"]). exact Hout.
Defined.

Lemma scaling_touches_numerical_columns_only_witness :
  let p' := api.called (api.scaler_transform numerical_part) process in
  api.scale_columns encoded_row process = (inr scaled_row, p')
  ∧ ∃ (sub : api.DataFrame) (scaled : list float),
      api.columns sub = api.numerical_features (api.feature_info artifacts)
      ∧ (∀ c v, (c, v) ∈ sub → api.df_cell c encoded_row = Some v)
      ∧ halve sub = inr scaled
      ∧ api.calls p' = [] ++ [api.scaler_transform sub]
      ∧ (∀ c, c ∈ api.numerical_features (api.feature_info artifacts) →
           ∃ i x,
             api.numerical_features (api.feature_info artifacts) !! i = Some c
             ∧ scaled !! i = Some x
             ∧ api.df_cell c scaled_row = Some (CFloat x))
      ∧ (∀ c, c ∉ api.numerical_features (api.feature_info artifacts) →
           api.df_cell c scaled_row = api.df_cell c encoded_row)
      ∧ api.columns scaled_row = api.columns encoded_row.
Proof.
  assert (Hrun : api.scale_columns encoded_row process
                 = (inr scaled_row,
                    api.called (api.scaler_transform numerical_part) process))
    by (vm_compute; reflexivity).
  split; [exact Hrun|].
  exact (scaling_touches_numerical_columns_only _ _ _ _ Hrun).
Defined.


(** The boundary of C3: a distance of exactly zero and one just below
    zero get the same 422. *)
Example distance_at_and_below_zero_rejected :
  (api.post_predict (request 0 "Morning") process).1
  = {| api.status_code := 422;
       api.body := api.validation_json [("Trip_Distance_km", api.not_gt 0)] |}
  ∧ (api.post_predict (request (-1 # 1000000) "Morning") process).1
    = {| api.status_code := 422;
         api.body := api.validation_json [("Trip_Distance_km", api.not_gt 0)] |}
  ∧ api.calls (api.post_predict (request 0 "Morning") process).2 = []
  ∧ api.calls (api.post_predict (request (-1 # 1000000) "Morning") process).2
    = [].
Proof. vm_compute. done. Qed.

Lemma member_order_is_irrelevant_witness :
  NoDup (request (31 # 2) "Morning").*1
  ∧ request (31 # 2) "Morning" ≡ₚ reverse (request (31 # 2) "Morning")
  ∧ api.post_predict (request (31 # 2) "Morning") process
    = api.post_predict (reverse (request (31 # 2) "Morning")) process.
Proof.
  assert (Hnd : NoDup (request (31 # 2) "Morning").*1).
  { apply (bool_decide_unpack _). vm_compute. exact I. }
  assert (Hperm : request (31 # 2) "Morning"
                  ≡ₚ reverse (request (31 # 2) "Morning")).
  { symmetry. apply reverse_Permutation. }
  split; [exact Hnd|]. split; [exact Hperm|].
  apply member_order_is_irrelevant; [exact Hnd | exact Hperm].
Defined.

Lemma pipeline_exception_is_http_500_witness :
  let e := ValueError "y contains previously unseen labels: 'Midnight'" in
  api.TripInput_validate (api.json_object (request (31 # 2) "Midnight"))
  = inr (trip "Midnight")
  ∧ api.predict_price_body (trip "Midnight") process = (inl e, after_midnight)
  ∧ api.post_predict (request (31 # 2) "Midnight") process
    = ({| api.status_code := 500;
          api.body := api.detail_json ("Prediction error: " +:+ str_exn e) |},
       after_midnight).
Proof.
  assert (Hv : api.TripInput_validate
                 (api.json_object (request (31 # 2) "Midnight"))
               = inr (trip "Midnight")) by (vm_compute; reflexivity).
  assert (Hbody : api.predict_price_body (trip "Midnight") process
                  = (inl (ValueError
                            "y contains previously unseen labels: 'Midnight'"),
                     after_midnight)) by (vm_compute; reflexivity).
  split; [exact Hv|]. split; [exact Hbody|].
  exact (pipeline_exception_is_http_500 _ _ _ _ _ Hv Hbody).
Defined.

Lemma successful_response_is_rounded_price_in_SEK_witness :
  let run := api.post_predict (request (31 # 2) "Morning") process in
  api.status_code run.1 = 200%Z
  ∧ ∃ (df : api.DataFrame) (x : float) (rest : list float) (k : Z),
      last (api.calls run.2) = Some (api.model_predict df)
      ∧ add_up df = inr (x :: rest)
      ∧ api.body run.1
        = api.prediction_json {| api.predicted_price := api.round x 2;
                                 api.currency := "SEK" |}
      ∧ api.round x 2 = (k # 100)%Q
      ∧ (Qabs (api.round x 2 - x) <= 1 # 200)%Q.
Proof.
  assert (Hstatus : api.status_code
                      (api.post_predict (request (31 # 2) "Morning") process).1
                    = 200%Z) by (vm_compute; reflexivity).
  split; [exact Hstatus|].
  exact (successful_response_is_rounded_price_in_SEK _ _ _ _
           (surjective_pairing _) Hstatus).
Defined.

(** The price of the reference request. *)
Example reference_price :
  (api.post_predict (request (31 # 2) "Morning") process).1
  = {| api.status_code := 200;
       api.body := api.prediction_json
                     {| api.predicted_price := 2790 # 100;
                        api.currency := "SEK" |} |}.
Proof. vm_compute. reflexivity. Qed.

Lemma unseen_label_fails_with_encoder_message_witness :
  api.TripInput_validate (api.json_object (request (31 # 2) "Midnight"))
  = inr (trip "Midnight")
  ∧ "Time_of_Day" ∈ api.categorical_features (api.feature_info artifacts)
  ∧ api.df_cell "Time_of_Day" (api.TripInput_dict (trip "Midnight"))
    = Some (CStr "Midnight")
  ∧ api.label_encoders artifacts !! "Time_of_Day"
    = Some (encoder ["Afternoon"; "Evening"; "Morning"])
  ∧ ("Midnight" ∉ ["Afternoon"; "Evening"; "Morning"])
  ∧ ∃ (msg : string) (cs : list api.call),
      api.post_predict (request (31 # 2) "Midnight") process
      = ({| api.status_code := 500;
            api.body := api.detail_json ("Prediction error: " +:+ msg) |},
         {| api.globals := artifacts; api.calls := [] ++ cs |})
      ∧ Forall (λ c, api.is_encoder_call c = true) cs
      ∧ (∀ pre post df1 p1,
           api.categorical_features (api.feature_info artifacts)
           = pre ++ "Time_of_Day" :: post →
           api.encode_columns pre (api.TripInput_dict (trip "Midnight")) process
           = (inr df1, p1) →
           msg = "y contains previously unseen labels: "
                 +:+ repr_str "Midnight").
Proof.
  assert (Hv : api.TripInput_validate
                 (api.json_object (request (31 # 2) "Midnight"))
               = inr (trip "Midnight")) by (vm_compute; reflexivity).
  assert (Hin : "Time_of_Day"
                ∈ api.categorical_features (api.feature_info artifacts))
    by apply list_elem_of_here.
  assert (Hcell : api.df_cell "Time_of_Day"
                    (api.TripInput_dict (trip "Midnight"))
                  = Some (CStr "Midnight")) by (vm_compute; reflexivity).
  assert (Henc : api.label_encoders artifacts !! "Time_of_Day"
                 = Some (encoder ["Afternoon"; "Evening"; "Morning"]))
    by (vm_compute; reflexivity).
  assert (Hout : "Midnight" ∉ ["Afternoon"; "Evening"; "Morning"]).
  { apply (bool_decide_unpack _). vm_compute. exact I. }
  repeat (split; [assumption|]).
  exact (unseen_label_fails_with_encoder_message _ _ process _ _ _
           Hv Hin Hcell Henc Hout).
Defined.

(** C1 as stated does not hold: for the request with the time of day
    "Midnight", which the encoder of that field has not seen, the
    response is a 500 whose detail names the value and not the field. *)
Lemma unseen_label_failure_omits_field :
  let resp := (api.post_predict (request (31 # 2) "Midnight") process).1 in
  ("Midnight" ∉ ["Afternoon"; "Evening"; "Morning"])
  ∧ resp = {| api.status_code := 500; api.body := api.detail_json error_detail |}
  ∧ occurs_in "Midnight" error_detail = true
  ∧ occurs_in "Time_of_Day" error_detail = false.
Proof.
  split; [apply (bool_decide_unpack _); vm_compute; exact I|].
  vm_compute. done.
Qed.

Lemma unresolved_place_is_reported_without_predict_witness :
  let f := route_form "Stockholm" "Atlantis" in
  let from_loc :=
    Some {| app.latitude := 5933 # 100; app.longitude := 1807 # 100 |} in
  let message := app.join " | " (app.not_found_messages f from_loc None) in
  let shown :=
    [ app.st_spinner "Geocoding Stockholm and Atlantis...";
      app.geocode "Stockholm";
      app.geocode "Atlantis";
      app.st_error ("❌ " +:+ message) ] in
  gazetteer "Stockholm" = inr from_loc
  ∧ gazetteer "Atlantis" = inr None
  ∧ (from_loc = None ∨ None = (None : option app.Location))
  ∧ @app.tab2 py failing_service true f session
    = (inr tt, {| app.route_result := Some (app.route_failure message);
                  app.trace := [] ++ shown |})
  ∧ existsb app.is_post shown = false
  ∧ (from_loc = None → occurs_in "Stockholm" message = true)
  ∧ ((None : option app.Location) = None →
     occurs_in "Atlantis" message = true).
Proof.
  split; [reflexivity|]. split; [reflexivity|]. split; [by right|].
  apply (@unresolved_place_is_reported_without_predict py failing_service
           (route_form "Stockholm" "Atlantis") session);
    [reflexivity | reflexivity | by right].
Defined.

Lemma failed_predict_shows_status_or_connection_message_witness :
  let f := route_form "Stockholm" "Uppsala" in
  let basic_calls :=
    [ app.st_spinner "Calculating price...";
      app.post app.API_URL (app.basic_trip_data basic_form) ] in
  let route_calls :=
    [ app.st_spinner "Geocoding Stockholm and Uppsala...";
      app.geocode "Stockholm";
      app.geocode "Uppsala";
      app.st_spinner "Predicting price...";
      app.post app.API_URL (app.route_trip_data f stockholm_uppsala_km) ] in
  app.status_code error_response ≠ 200%Z
  ∧ (let shown := basic_calls ++ [app.st_error "Error: 500"] in
     @app.tab1 py failing_service true basic_form session
     = (inr tt, {| app.route_result := None; app.trace := [] ++ shown |})
     ∧ existsb app.shows_price shown = false)
  ∧ (let shown := basic_calls ++ [app.st_error "Cannot connect to backend API"] in
     @app.tab1 py unreachable_service true basic_form session
     = (inr tt, {| app.route_result := None; app.trace := [] ++ shown |})
     ∧ existsb app.shows_price shown = false)
  ∧ (let shown := route_calls ++ [app.st_error "❌ Prediction error: 500"] in
     @app.tab2 py failing_service true f session
     = (inr tt,
        {| app.route_result := Some (app.route_failure "Prediction error: 500");
           app.trace := [] ++ shown |})
     ∧ existsb app.shows_price shown = false)
  ∧ (let shown := route_calls ++ [app.st_error "❌ Connection refused"] in
     @app.tab2 py unreachable_service true f session
     = (inr tt,
        {| app.route_result := Some (app.route_failure "Connection refused");
           app.trace := [] ++ shown |})
     ∧ existsb app.shows_price shown = false).
Proof.
  assert (Hstatus : app.status_code error_response ≠ 200%Z) by done.
  pose proof (@failed_predict_shows_status_or_connection_message
                py failing_service) as (Hbasic & _ & Hroute & _).
  pose proof (@failed_predict_shows_status_or_connection_message
                py unreachable_service) as (_ & Hbasic_down & _ & Hroute_down).
  split; [exact Hstatus|]. split; [|split; [|split]].
  - exact (Hbasic basic_form session error_response eq_refl Hstatus).
  - exact (Hbasic_down basic_form session "Connection refused" eq_refl).
  - exact (Hroute (route_form "Stockholm" "Uppsala") session stockholm uppsala
             stockholm_uppsala_km error_response eq_refl eq_refl eq_refl eq_refl
             Hstatus).
  - exact (Hroute_down (route_form "Stockholm" "Uppsala") session stockholm
             uppsala stockholm_uppsala_km "Connection refused" eq_refl eq_refl
             eq_refl eq_refl).
Defined.

(** C9 as stated does not hold: the backend's answer to the "Midnight"
    request, status 500 with the detail in its body, is shown on the
    first tab as "Error: 500" and on the second as "Prediction error:
    500"; neither the body nor the detail is on the page. *)
Lemma error_text_of_server_is_not_shown :
  let basic := (@app.tab1 py failing_service true basic_form session).2 in
  let route := (@app.tab2 py failing_service true
                  (route_form "Stockholm" "Uppsala") session).2 in
  app.status_code error_response = 500%Z
  ∧ last (app.trace basic) = Some (app.st_error "Error: 500")
  ∧ last (app.trace route) = Some (app.st_error "❌ Prediction error: 500")
  ∧ app.displays (app.text error_response) (app.trace basic) = false
  ∧ app.displays error_detail (app.trace basic) = false
  ∧ app.displays (app.text error_response) (app.trace route) = false
  ∧ app.displays error_detail (app.trace route) = false.
Proof. vm_compute. done. Qed.

End on_reference.

(** * More on the validation of the request *)

Section validated_input.
Import api.
Context `{PyLib}.

Lemma float_gt_true x limit : float_gt x limit = true → (limit < x)%Q.
Proof.
  unfold float_gt. destruct (limit ?= x)%Q eqn:E; [done| |done].
  intros _. by apply Qlt_alt.
Qed.

Lemma float_le_true x limit : float_le x limit = true → (x <= limit)%Q.
Proof.
  unfold float_le. destruct (x ?= limit)%Q eqn:E; [| |done];
    intros _; apply Qle_alt; by rewrite E.
Qed.

(** What a float field that validates has passed. *)
Lemma float_field_inr g le name d x :
  float_field (Some g) le name d = inr x →
  (g < x)%Q
  ∧ match le with Some l => (x <= l)%Q | None => True end
  ∧ is_Some (d !! name).
Proof.
  unfold float_field. destruct (d !! name) as [j|]; [|done].
  destruct (validate_float j) as [y|]; [|done].
  destruct (float_gt y g) eqn:Hgt; [|done].
  apply float_gt_true in Hgt.
  destruct le as [l|].
  - destruct (float_le y l) eqn:Hle; [|done].
    apply float_le_true in Hle. intros [= <-]. eauto.
  - intros [= <-]. eauto.
Qed.

Lemma str_field_inr name d s :
  str_field name d = inr s → is_Some (d !! name).
Proof. unfold str_field. destruct (d !! name); [eauto|done]. Qed.

(** X1. A body that becomes a [TripInput] has all ten members, and the
    floats of that [TripInput] are within the bounds of lines 41-50:
    distance, fare, rates and duration above zero, the passenger count
    above zero and at most ten. What [predict_price] receives is never
    out of bounds. *)
Theorem accepted_trip_is_within_bounds
    (d : gmap string jvalue) (trip : TripInput) :
  TripInput_validate d = inr trip →
  (0 < Trip_Distance_km trip)%Q
  ∧ (0 < Passenger_Count trip)%Q ∧ (Passenger_Count trip <= 10)%Q
  ∧ (0 < Base_Fare trip)%Q
  ∧ (0 < Per_Km_Rate trip)%Q
  ∧ (0 < Per_Minute_Rate trip)%Q
  ∧ (0 < Trip_Duration_Minutes trip)%Q
  ∧ Forall (λ name, is_Some (d !! name)) field_names.
Proof.
  unfold TripInput_validate.
  destruct (float_field _ _ "Trip_Distance_km" d) as [|x1] eqn:E1; [done|].
  destruct (str_field "Time_of_Day" d) as [|x2] eqn:E2; [done|].
  destruct (str_field "Day_of_Week" d) as [|x3] eqn:E3; [done|].
  destruct (float_field _ _ "Passenger_Count" d) as [|x4] eqn:E4; [done|].
  destruct (str_field "Traffic_Conditions" d) as [|x5] eqn:E5; [done|].
  destruct (str_field "Weather" d) as [|x6] eqn:E6; [done|].
  destruct (float_field _ _ "Base_Fare" d) as [|x7] eqn:E7; [done|].
  destruct (float_field _ _ "Per_Km_Rate" d) as [|x8] eqn:E8; [done|].
  destruct (float_field _ _ "Per_Minute_Rate" d) as [|x9] eqn:E9; [done|].
  destruct (float_field _ _ "Trip_Duration_Minutes" d) as [|x10] eqn:E10;
    [done|].
  intros [= <-]. simpl.
  apply float_field_inr in E1 as (? & _ & ?), E4 as (? & ? & ?),
    E7 as (? & _ & ?), E8 as (? & _ & ?), E9 as (? & _ & ?),
    E10 as (? & _ & ?).
  apply str_field_inr in E2, E3, E5, E6.
  repeat (split; [done|]). unfold field_names. by repeat constructor.
Qed.






End validated_input.

Section members.
Import api.
Context `{PyLib}.







End members.

(** * More on the pipeline *)

Section pipeline_runs.
Import api.
Context `{PyLib}.

(** The scaling step, run. *)
Lemma scale_columns_run df p :
  scale_columns df p =
  match df_getitem_list (numerical_features (feature_info (globals p))) df with
  | inl e => (inl e, p)
  | inr sub =>
      match scaler (globals p) sub with
      | inl e => (inl e, called (scaler_transform sub) p)
      | inr scaled =>
          match df_setitem_list (numerical_features (feature_info (globals p)))
                  scaled df with
          | inl e => (inl e, called (scaler_transform sub) p)
          | inr df' => (inr df', called (scaler_transform sub) p)
          end
      end
  end.
Proof.
  unfold scale_columns, bind, global, lift, invoke, ret, raise. simpl.
  destruct (df_getitem_list _ df) as [e|sub]; [done|]. simpl.
  destruct (scaler (globals p) sub) as [e|scaled]; [done|]. simpl.
  by destruct (df_setitem_list _ scaled df).
Qed.

(** The body of the [try] block, run step by step. *)
Lemma predict_price_body_run trip p :
  predict_price_body trip p =
  match encode_columns (categorical_features (feature_info (globals p)))
          (TripInput_dict trip) p with
  | (inl e, p1) => (inl e, p1)
  | (inr df1, p1) =>
      match scale_columns df1 p1 with
      | (inl e, p2) => (inl e, p2)
      | (inr df2, p2) =>
          match model (globals p2) df2 with
          | inl e => (inl e, called (model_predict df2) p2)
          | inr out =>
              match array_getitem0 out with
              | inl e => (inl e, called (model_predict df2) p2)
              | inr x =>
                  (inr (PredictionResponse_init (round x 2)),
                   called (model_predict df2) p2)
              end
          end
      end
  end.
Proof.
  unfold predict_price_body, bind, global. simpl.
  destruct (encode_columns _ _ p) as [[e|df1] p1]; [done|].
  destruct (scale_columns df1 p1) as [[e|df2] p2]; [done|].
  unfold invoke, lift, ret, raise.
  destruct (model (globals p2) df2) as [e|out]; [done|].
  by destruct (array_getitem0 out).
Qed.

(** The encoding loop keeps the globals. *)
Lemma encode_columns_globals cols df p r p' :
  encode_columns cols df p = (r, p') → globals p' = globals p.
Proof. intros Hrun. by destruct (encode_columns_calls _ _ _ _ _ Hrun) as (cs & -> & _). Qed.

(** [df[keys]] that returns: the sub-frame has the keys as its columns,
    and all of them are columns of the frame. *)
Lemma df_getitem_list_inr keys df sub :
  df_getitem_list keys df = inr sub →
  columns sub = keys ∧ Forall (λ k, k ∈ columns df) keys.
Proof.
  unfold df_getitem_list.
  destruct (mapM _ keys) as [sub'|] eqn:Hsub; [|done]. intros [= <-].
  apply mapM_Some in Hsub. unfold columns at 1.
  induction Hsub as [|k [k' v] ks sub Hk _ [IH1 IH2]]; [done|].
  destruct (df_cell k df) as [w|] eqn:Hcell; [|done]. simpl in Hk.
  injection Hk as -> _. split; [simpl; by f_equal|].
  constructor; [|done]. apply df_cell_columns. rewrite Hcell. eauto.
Qed.

(** [df[keys] = values] that returns keeps the columns, the keys being
    columns already. *)
Lemma df_setitem_list_columns keys values df df' :
  Forall (λ k, k ∈ columns df) keys →
  df_setitem_list keys values df = inr df' →
  columns df' = columns df.
Proof.
  intros Hkeys. unfold df_setitem_list.
  destruct (decide (length values = length keys)) as [Hlen|]; [|done].
  intros [= <-]. apply assign_columns.
  rewrite Forall_forall in Hkeys. apply Forall_forall. intros [k x] Hkx.
  simpl. apply Hkeys.
  rewrite <- (fst_zip keys values) by lia.
  by apply (list_elem_of_fmap_2 fst _ (k, x)).
Qed.

(** A name that is not a column makes [df[keys]] raise. *)
Lemma df_getitem_list_missing keys df name :
  name ∈ keys → name ∉ columns df →
  df_getitem_list keys df
  = inl (KeyError (repr_str (pandas_not_in_index keys (columns df)))).
Proof.
  intros Hin Hout. unfold df_getitem_list.
  rewrite (mapM_None_2 _ keys); [done|].
  apply Exists_exists. exists name. split; [done|].
  destruct (df_cell name df) as [v|] eqn:Hcell; [|done].
  destruct Hout. apply df_cell_columns. rewrite Hcell. eauto.
Qed.

Lemma TripInput_dict_columns trip : columns (TripInput_dict trip) = field_names.
Proof. done. Qed.

(** X6. A categorical field of the row that has no entry in
    label_encoders stops the request: when the loop reaches it, the
    lookup raises the [KeyError] of the name, and the answer is 500 with
    the detail "Prediction error: " and [repr] of the name. No encoder
    is called for that field, nor the scaler or the model after it. *)
Theorem missing_encoder_is_http_500
    (request_body : list (string * jvalue)) (trip : TripInput)
    (p p1 : Process) (pre post : list string) (col : string)
    (df1 : DataFrame) :
  TripInput_validate (json_object request_body) = inr trip →
  categorical_features (feature_info (globals p)) = pre ++ col :: post →
  encode_columns pre (TripInput_dict trip) p = (inr df1, p1) →
  col ∈ field_names →
  label_encoders (globals p) !! col = None →
  post_predict request_body p
  = ({| status_code := 500;
        body := detail_json ("Prediction error: " +:+ repr_str col) |}, p1).
Proof.
  intros Hv Hcats Hpre Hcol Hnone.
  rewrite (post_predict_validated _ _ _ Hv), predict_price_body_run.
  rewrite Hcats, encode_columns_app, Hpre. simpl. unfold bind.
  rewrite encode_column_run.
  rewrite decide_True
    by (by rewrite (encode_columns_columns _ _ _ _ _ Hpre)).
  rewrite (encode_columns_globals _ _ _ _ _ Hpre).
  unfold dict_getitem. by rewrite Hnone.
Qed.

(** X7. A name in feature_info's numerical list that is not a field of
    [TripInput] stops the request at the scaling step: selecting the
    numerical columns raises a [KeyError], the answer is 500 with that
    error as the detail, and neither the scaler nor the model is
    called. *)
Theorem missing_numerical_column_is_http_500
    (request_body : list (string * jvalue)) (trip : TripInput)
    (p p1 : Process) (df1 : DataFrame) (name : string) :
  TripInput_validate (json_object request_body) = inr trip →
  encode_columns (categorical_features (feature_info (globals p)))
    (TripInput_dict trip) p = (inr df1, p1) →
  name ∈ numerical_features (feature_info (globals p)) →
  name ∉ field_names →
  post_predict request_body p
  = ({| status_code := 500;
        body := detail_json
                  ("Prediction error: "
                   +:+ repr_str
                         (pandas_not_in_index
                            (numerical_features (feature_info (globals p)))
                            field_names)) |}, p1)
  ∧ ∃ encs, calls p1 = calls p ++ encs
            ∧ Forall (λ c, is_encoder_call c = true) encs.
Proof.
  intros Hv Henc Hname Hout. split.
  - rewrite (post_predict_validated _ _ _ Hv), predict_price_body_run, Henc.
    rewrite scale_columns_run, (encode_columns_globals _ _ _ _ _ Henc).
    assert (Hcols : columns df1 = field_names)
      by apply (encode_columns_columns _ _ _ _ _ Henc).
    rewrite (df_getitem_list_missing _ _ name); [|done|by rewrite Hcols].
    by rewrite Hcols.
  - destruct (encode_columns_calls _ _ _ _ _ Henc) as (encs & -> & Hencs).
    by exists encs.
Qed.

(** X8. When the scaler raises, or returns a row whose width is not the
    length of the numerical list, the answer is 500 with the scaler's
    message, or with "Columns must be same length as key"; the scaler
    was called once and the model is not called. *)
Theorem scaler_failure_is_http_500
    (request_body : list (string * jvalue)) (trip : TripInput)
    (p p1 : Process) (df1 sub : DataFrame) (e : exn) :
  TripInput_validate (json_object request_body) = inr trip →
  encode_columns (categorical_features (feature_info (globals p)))
    (TripInput_dict trip) p = (inr df1, p1) →
  df_getitem_list (numerical_features (feature_info (globals p))) df1
  = inr sub →
  (scaler (globals p) sub = inl e
   ∨ ∃ scaled,
       scaler (globals p) sub = inr scaled
       ∧ length scaled
         ≠ length (numerical_features (feature_info (globals p)))
       ∧ e = ValueError "Columns must be same length as key") →
  post_predict request_body p
  = ({| status_code := 500;
        body := detail_json ("Prediction error: " +:+ str_exn e) |},
     called (scaler_transform sub) p1).
Proof.
  intros Hv Henc Hsub Hfail.
  rewrite (post_predict_validated _ _ _ Hv), predict_price_body_run, Henc.
  rewrite scale_columns_run, (encode_columns_globals _ _ _ _ _ Henc), Hsub.
  destruct Hfail as [->|(scaled & -> & Hlen & ->)]; [done|].
  unfold df_setitem_list. by rewrite decide_False.
Qed.

(** X9. When the model raises, or returns an empty array, the answer
    is 500 with the model's message, or with the [IndexError] of taking
    element 0; the model was called once, on the scaled row. *)
Theorem model_failure_is_http_500
    (request_body : list (string * jvalue)) (trip : TripInput)
    (p p1 p2 : Process) (df1 df2 : DataFrame) (e : exn) :
  TripInput_validate (json_object request_body) = inr trip →
  encode_columns (categorical_features (feature_info (globals p)))
    (TripInput_dict trip) p = (inr df1, p1) →
  scale_columns df1 p1 = (inr df2, p2) →
  (model (globals p) df2 = inl e
   ∨ (model (globals p) df2 = inr []
      ∧ e = IndexError "index 0 is out of bounds for axis 0 with size 0")) →
  post_predict request_body p
  = ({| status_code := 500;
        body := detail_json ("Prediction error: " +:+ str_exn e) |},
     called (model_predict df2) p2).
Proof.
  intros Hv Henc Hsc Hfail.
  rewrite (post_predict_validated _ _ _ Hv), predict_price_body_run, Henc, Hsc.
  rewrite (reads_only_globals _ _ _ _ (reads_only_scale_columns df1) Hsc).
  rewrite (encode_columns_globals _ _ _ _ _ Henc).
  by destruct Hfail as [->|[-> ->]].
Qed.

End pipeline_runs.

Section encoders.
Import api.
Context `{PyLib}.




(** The trace of a loop that returns: one encoder call for each listed
    name that is a column, in the order of the list. *)
Lemma encode_columns_trace cols df p df' p' :
  encode_columns cols df p = (inr df', p') →
  ∃ encs, p' = {| globals := globals p; calls := calls p ++ encs |}
          ∧ Forall (λ c, is_encoder_call c = true) encs
          ∧ omap encoder_call_column encs = filter (λ c, c ∈ columns df) cols.
Proof.
  revert df p. induction cols as [|c cols IH]; intros df p; simpl.
  - intros [= <- <-]. exists []. rewrite app_nil_r. by destruct p.
  - unfold bind. destruct (encode_column c df p) as [[e|df1] p1] eqn:Hc; [done|].
    intros Hrest. apply IH in Hrest as (encs & -> & Hencs & Hnames).
    rewrite (encode_column_columns _ _ _ _ _ Hc) in Hnames.
    rewrite encode_column_run in Hc. rewrite filter_cons.
    destruct (decide (c ∈ columns df)) as [Hin|Hout].
    + destruct (dict_getitem _ c); [done|].
      destruct (df_getitem c df) as [|x]; [done|].
      destruct (le_transform _ _); [done|].
      injection Hc as _ <-. simpl.
      exists (encoder_transform c x :: encs). rewrite <- app_assoc. simpl.
      split; [done|]. split; [by constructor|]. by f_equal.
    + injection Hc as _ <-. by exists encs.
Qed.

(** X12. After an encoding loop over a list without repetition that
    returns: every listed column of the row holds the integer code that
    its encoder gives to the cell it held before; every column that is
    not listed holds what it held; and the columns are the same, in the
    same order. *)
Theorem encoding_replaces_labels_by_codes
    (cols : list string) (df df' : DataFrame) (p p' : Process) :
  NoDup cols →
  encode_columns cols df p = (inr df', p') →
  (∀ col, col ∈ cols → col ∈ columns df →
     ∃ encoder x code,
       label_encoders (globals p) !! col = Some encoder
       ∧ df_cell col df = Some x
       ∧ le_transform encoder x = inr code
       ∧ df_cell col df' = Some (CInt code))
  ∧ (∀ col, col ∉ cols → df_cell col df' = df_cell col df)
  ∧ columns df' = columns df.
Proof.
  intros Hnd Hrun.
  assert (Hother : ∀ cols df p df' p',
            encode_columns cols df p = (inr df', p') →
            ∀ col, col ∉ cols → df_cell col df' = df_cell col df).
  { clear. intros cols. induction cols as [|c cols IH]; intros df p df' p'; simpl.
    - by intros [= <- <-].
    - unfold bind.
      destruct (encode_column c df p) as [[e|df1] p1] eqn:Hc; [done|].
      intros Hrest col [Hne Hout]%not_elem_of_cons.
      rewrite (IH _ _ _ _ Hrest col Hout).
      by apply (encode_column_other c col df p df1 p1). }
  split; [|split].
  - revert df p Hrun. induction Hnd as [|c cols Hc Hnd IH]; intros df p Hrun col.
    + by intros ?%elem_of_nil.
    + simpl in Hrun. unfold bind in Hrun.
      destruct (encode_column c df p) as [[e|df1] p1] eqn:Hstep; [done|].
      intros [->|Hin]%elem_of_cons Hcol.
      * rewrite encode_column_run, decide_True in Hstep by done.
        unfold dict_getitem in Hstep.
        destruct (label_encoders (globals p) !! c) as [encoder|] eqn:Henc;
          [|done].
        unfold df_getitem in Hstep.
        destruct (df_cell c df) as [x|] eqn:Hcell; [|done].
        destruct (le_transform encoder x) as [|code] eqn:Hcode; [done|].
        injection Hstep as <- _.
        exists encoder, x, code. repeat split; try done.
        rewrite (Hother _ _ _ _ _ Hrun c Hc). apply df_cell_setitem_eq.
      * assert (Hne : c ≠ col) by (by intros ->).
        destruct (IH df1 p1 Hrun col Hin) as (encoder & x & code & He & Hx & Hcode & Hres).
        { by rewrite (encode_column_columns _ _ _ _ _ Hstep). }
        exists encoder, x, code.
        rewrite (encode_columns_globals [c] df p (inr df1) p1) in He
          by (simpl; unfold bind; by rewrite Hstep).
        rewrite (encode_column_other c col df p df1 p1 Hne Hstep) in Hx.
        done.
  - by apply (Hother _ _ _ _ _ Hrun).
  - by apply (encode_columns_columns _ _ _ _ _ Hrun).
Qed.

(** X10. A request answered with 200 called the artifacts in the order
    of the pipeline and no more: one encoder call for each name of the
    categorical list that is a field, in the order of the list, then the
    scaler once on the columns of the numerical list, then the model
    once, on a row whose columns are the ten fields in the order of
    their declaration, whatever the order of the lists of feature_info. *)
Theorem successful_run_calls_in_pipeline_order
    (request_body : list (string * jvalue)) (p p' : Process)
    (resp : response) :
  post_predict request_body p = (resp, p') →
  status_code resp = 200%Z →
  ∃ (encs : list call) (sub df : DataFrame),
    calls p' = calls p ++ encs ++ [scaler_transform sub; model_predict df]
    ∧ Forall (λ c, is_encoder_call c = true) encs
    ∧ omap encoder_call_column encs
      = filter (λ c, c ∈ field_names)
          (categorical_features (feature_info (globals p)))
    ∧ columns sub = numerical_features (feature_info (globals p))
    ∧ columns df = field_names.
Proof.
  intros Hrun Hstatus.
  destruct (TripInput_validate (json_object request_body)) as [errs|trip] eqn:Hv.
  { unfold post_predict in Hrun. rewrite Hv in Hrun. by injection Hrun as <- _. }
  rewrite (post_predict_validated _ _ _ Hv), predict_price_body_run in Hrun.
  destruct (encode_columns _ _ p) as [[e|df1] p1] eqn:Henc;
    [by injection Hrun as <- _|].
  pose proof (encode_columns_columns _ _ _ _ _ Henc) as Hcols1.
  apply encode_columns_trace in Henc as (encs & -> & Hencs & Hnames).
  rewrite scale_columns_run in Hrun. simpl in Hrun.
  destruct (df_getitem_list _ df1) as [e|sub] eqn:Hsub;
    [by injection Hrun as <- _|].
  apply df_getitem_list_inr in Hsub as [Hsubcols Hkeys].
  destruct (scaler (globals p) sub) as [e|scaled];
    [by injection Hrun as <- _|].
  destruct (df_setitem_list _ scaled df1) as [e|df2] eqn:Hset;
    [by injection Hrun as <- _|].
  apply (df_setitem_list_columns _ _ _ _ Hkeys) in Hset.
  simpl in Hrun.
  destruct (model (globals p) df2) as [e|out]; [by injection Hrun as <- _|].
  destruct (array_getitem0 out); [by injection Hrun as <- _|].
  injection Hrun as _ <-. exists encs, sub, df2. simpl.
  rewrite <- !app_assoc. repeat split; try done. by rewrite Hset, Hcols1.
Qed.

End encoders.

Section rounded_prices.
Import api.






End rounded_prices.

(** * More on the client *)

Section first_tab.
Import app.
Context `{PyLib} `{Outside}.

Local Ltac run_tab :=
  unfold tab1, tab2, basic_predict, route_predict, route_display, try_except,
    bind, do_post, do_geocode, emit, lift, ret, raise, set_route_result,
    get_route_result, dict_getitem; simpl.

(** X15. On the first tab, a 200 answer whose body has a price that
    formats and a currency is shown as the success banner, the heading,
    the price followed by the currency, and the summary of the trip. *)
Theorem basic_success_shows_price
    (f : BasicForm) (s : Session) (resp : Response)
    (members : gmap string jvalue) (price currency : jvalue) (shown : string) :
  requests_post API_URL (basic_trip_data f) = inr resp →
  status_code resp = 200%Z →
  json resp = inr members →
  members !! "predicted_price" = Some price →
  json_format_2f price = inr shown →
  members !! "currency" = Some currency →
  tab1 true f s
  = (inr tt,
     {| route_result := route_result s;
        trace := trace s
                 ++ [ st_spinner "Calculating price...";
                      post API_URL (basic_trip_data f);
                      st_success "Prediction successful!";
                      st_markdown "### Estimated Trip Price";
                      st_markdown ("# " +:+ shown +:+ " " +:+ json_str currency);
                      st_info (basic_summary f) ] |}).
Proof.
  intros Hpost Hstatus Hjson Hprice Hshown Hcur.
  run_tab. rewrite Hpost. simpl. rewrite decide_True by done.
  rewrite Hjson. simpl. rewrite Hprice. simpl. rewrite Hshown. simpl.
  rewrite Hcur. simpl. by rewrite <- !app_assoc.
Qed.

(** X16. On the first tab, a 200 answer with an incomplete body never
    shows a price, and what it shows depends on what is missing. Without
    "predicted_price" only the error with the name of the key is shown.
    With a price that does not format (the exception of the format not
    being a connection error), or without "currency", the success banner
    and the heading are already on the page when the error is shown
    under them. *)
Theorem basic_incomplete_body_shows_error
    (f : BasicForm) (s : Session) (resp : Response)
    (members : gmap string jvalue) :
  requests_post API_URL (basic_trip_data f) = inr resp →
  status_code resp = 200%Z →
  json resp = inr members →
  ∀ (price : jvalue) (shown : string) (e : exn),
    let asked :=
      [ st_spinner "Calculating price..."; post API_URL (basic_trip_data f) ] in
    let banner :=
      [ st_success "Prediction successful!";
        st_markdown "### Estimated Trip Price" ] in
    let ends_with (evs : list event) :=
      tab1 true f s
      = (inr tt, {| route_result := route_result s; trace := trace s ++ evs |})
      ∧ existsb shows_price evs = false in
    (members !! "predicted_price" = None →
     ends_with (asked ++ [st_error ("Error: " +:+ repr_str "predicted_price")]))
    ∧ (members !! "predicted_price" = Some price →
       json_format_2f price = inl e →
       (∀ msg, e ≠ ConnectionError msg) →
       ends_with (asked ++ banner ++ [st_error ("Error: " +:+ str_exn e)]))
    ∧ (members !! "predicted_price" = Some price →
       json_format_2f price = inr shown →
       members !! "currency" = None →
       ends_with (asked ++ banner
                  ++ [st_error ("Error: " +:+ repr_str "currency")])).
Proof.
  intros Hpost Hstatus Hjson price shown e. simpl.
  split; [|split].
  - intros Hprice. split; [|done].
    run_tab. rewrite Hpost. simpl. rewrite decide_True by done.
    rewrite Hjson. simpl. rewrite Hprice. simpl. by rewrite <- !app_assoc.
  - intros Hprice Hfmt Hclass. split; [|done].
    run_tab. rewrite Hpost. simpl. rewrite decide_True by done.
    rewrite Hjson. simpl. rewrite Hprice. simpl. rewrite Hfmt. simpl.
    destruct e as [| | |m| |]; simpl; rewrite <- ?app_assoc; try done.
    by destruct (Hclass m).
  - intros Hprice Hfmt Hcur. split; [|done].
    run_tab. rewrite Hpost. simpl. rewrite decide_True by done.
    rewrite Hjson. simpl. rewrite Hprice. simpl. rewrite Hfmt. simpl.
    rewrite Hcur. simpl. by rewrite <- !app_assoc.
Qed.

Local Ltac close_run :=
  simpl; eexists; split; [rewrite <- ?app_assoc; simpl; reflexivity | reflexivity].

(** X17. The first tab does nothing when the button was not clicked.
    When it was, the handler never lets an exception out, leaves
    route_result alone, and makes exactly one call: the request to
    API_URL with the data of the form. *)
Theorem first_tab_asks_once_and_never_raises (f : BasicForm) (s : Session) :
  tab1 false f s = (inr tt, s)
  ∧ ∃ rest,
      tab1 true f s
      = (inr tt,
         {| route_result := route_result s;
            trace := trace s
                     ++ st_spinner "Calculating price..."
                        :: post API_URL (basic_trip_data f) :: rest |})
      ∧ existsb is_call rest = false.
Proof.
  split; [done|]. run_tab.
  destruct (requests_post API_URL (basic_trip_data f)) as [e|resp].
  { destruct e; close_run. }
  simpl. destruct (decide (status_code resp = 200%Z)) as [Hok|Hnot]; [|close_run].
  destruct (json resp) as [e|members]; [destruct e; close_run|]. simpl.
  destruct (members !! "predicted_price") as [price|]; [|close_run]. simpl.
  destruct (json_format_2f price) as [e|shown]; [destruct e; close_run|]. simpl.
  destruct (members !! "currency") as [currency|]; close_run.
Qed.

End first_tab.

Section second_tab.
Import app.
Context `{PyLib} `{Outside}.

Local Ltac run_tab :=
  unfold tab1, tab2, basic_predict, route_predict, route_display, try_except,
    bind, do_post, do_geocode, emit, lift, ret, raise, set_route_result,
    get_route_result, dict_getitem; simpl.


(** X19. A run of the second tab without a click calls neither the
    geocoder nor the service and leaves route_result as it is: nothing
    is shown while there is no result, and a stored failure is shown
    again as it was. *)
Theorem route_rerun_shows_stored_result (f : RouteForm) (s : Session) :
  ∃ (r : exn + unit) (shown : list event),
    tab2 false f s
    = (r, {| route_result := route_result s; trace := trace s ++ shown |})
    ∧ existsb is_call shown = false
    ∧ match route_result s with
      | None => r = inr tt ∧ shown = []
      | Some (route_failure error) =>
          r = inr tt ∧ shown = [st_error ("❌ " +:+ error)]
      | Some (route_success _) => True
      end.
Proof.
  run_tab. destruct s as [[[stored|error]|] tr]; simpl.
  - destruct (json_format_2f _) as [e|shown]; simpl;
      (eexists _, _; split; [by rewrite <- ?app_assoc|]); done.
  - by eexists _, _.
  - exists (inr tt), []. by rewrite app_nil_r.
Qed.

(** X20. When the geocoder raises, the message of the exception is
    stored as the failure and shown as the error; no request is sent. If
    it raises on the first place, the second place is not looked up. *)
Theorem geocoder_exception_is_reported
    (f : RouteForm) (s : Session) (e : exn) :
  (geolocator_geocode (from_location f) = inl e →
   tab2 true f s
   = (inr tt,
      {| route_result := Some (route_failure (str_exn e));
         trace := trace s
                  ++ [ geocoding f; geocode (from_location f);
                       st_error ("❌ " +:+ str_exn e) ] |}))
  ∧ (∀ from_loc,
       geolocator_geocode (from_location f) = inr from_loc →
       geolocator_geocode (to_location f) = inl e →
       tab2 true f s
       = (inr tt,
          {| route_result := Some (route_failure (str_exn e));
             trace := trace s
                      ++ [ geocoding f; geocode (from_location f);
                           geocode (to_location f);
                           st_error ("❌ " +:+ str_exn e) ] |})).
Proof.
  unfold geocoding. split.
  - intros Hfrom. run_tab. rewrite Hfrom. simpl. by rewrite <- !app_assoc.
  - intros from_loc Hfrom Hto. run_tab. rewrite Hfrom. simpl. rewrite Hto.
    simpl. by rewrite <- !app_assoc.
Qed.

(** X21. When both places resolve and the service answers 200 with a
    price that formats and a currency, the request carried the measured
    distance between the two places as Trip_Distance_km; the route is
    stored as a success with that distance; and the page shows the
    distance, the map, the heading, the price with the currency and the
    summary. *)
Theorem route_success_is_stored_and_shown
    (f : RouteForm) (s : Session) (from_loc to_loc : Location) (km : float)
    (resp : Response) (members : gmap string jvalue)
    (price currency : jvalue) (shown : string) :
  geolocator_geocode (from_location f) = inr (Some from_loc) →
  geolocator_geocode (to_location f) = inr (Some to_loc) →
  geodesic_kilometers (latitude from_loc, longitude from_loc)
    (latitude to_loc, longitude to_loc) = inr km →
  requests_post API_URL (route_trip_data f km) = inr resp →
  status_code resp = 200%Z →
  json resp = inr members →
  members !! "predicted_price" = Some price →
  members !! "currency" = Some currency →
  json_format_2f price = inr shown →
  let stored := route_stored f from_loc to_loc km price currency in
  tab2 true f s
  = (inr tt,
     {| route_result := Some (route_success stored);
        trace := trace s
                 ++ [ geocoding f; geocode (from_location f);
                      geocode (to_location f);
                      st_spinner "Predicting price...";
                      post API_URL (route_trip_data f km);
                      st_success ("Found locations! Distance: "
                                    +:+ format_2f km +:+ " km");
                      st_markdown "### 🗺️ Route Map";
                      st_folium (route_map f from_loc to_loc km);
                      st_markdown "### Estimated Trip Price";
                      st_markdown ("# " +:+ shown +:+ " " +:+ json_str currency);
                      st_info (route_summary stored) ] |}).
Proof.
  intros Hfrom Hto Hkm Hpost Hstatus Hjson Hprice Hcur Hshown. simpl.
  unfold geocoding. run_tab. rewrite Hfrom. simpl. rewrite Hto. simpl.
  rewrite Hkm. simpl. rewrite Hpost. simpl. rewrite decide_True by done.
  rewrite Hjson. simpl. rewrite Hprice. simpl. rewrite Hcur. simpl.
  rewrite Hshown. simpl. by rewrite <- !app_assoc.
Qed.

(** X22. The display of the second tab is outside the [try] block: a
    200 answer whose price does not format is stored as a success all
    the same, the exception of the format leaves the script after the
    distance, the map and the heading were shown, and it does so again
    on every later run without a click, since the stored result stays. *)
Theorem route_unformattable_price_raises
    (f : RouteForm) (s : Session) (from_loc to_loc : Location) (km : float)
    (resp : Response) (members : gmap string jvalue)
    (price currency : jvalue) (e : exn) :
  geolocator_geocode (from_location f) = inr (Some from_loc) →
  geolocator_geocode (to_location f) = inr (Some to_loc) →
  geodesic_kilometers (latitude from_loc, longitude from_loc)
    (latitude to_loc, longitude to_loc) = inr km →
  requests_post API_URL (route_trip_data f km) = inr resp →
  status_code resp = 200%Z →
  json resp = inr members →
  members !! "predicted_price" = Some price →
  members !! "currency" = Some currency →
  json_format_2f price = inl e →
  let stored := route_stored f from_loc to_loc km price currency in
  let page :=
    [ st_success ("Found locations! Distance: " +:+ format_2f km +:+ " km");
      st_markdown "### 🗺️ Route Map";
      st_folium (route_map f from_loc to_loc km);
      st_markdown "### Estimated Trip Price" ] in
  ∃ after,
    tab2 true f s = (inl e, after)
    ∧ route_result after = Some (route_success stored)
    ∧ trace after
      = trace s
        ++ [ geocoding f; geocode (from_location f); geocode (to_location f);
             st_spinner "Predicting price...";
             post API_URL (route_trip_data f km) ] ++ page
    ∧ ∀ g, tab2 false g after
           = (inl e, {| route_result := Some (route_success stored);
                        trace := trace after ++ page |}).
Proof.
  intros Hfrom Hto Hkm Hpost Hstatus Hjson Hprice Hcur Hfmt. simpl.
  eexists. split; [|split; [|split]].
  - unfold geocoding. run_tab. rewrite Hfrom. simpl. rewrite Hto. simpl.
    rewrite Hkm. simpl. rewrite Hpost. simpl. rewrite decide_True by done.
    rewrite Hjson. simpl. rewrite Hprice. simpl. rewrite Hcur. simpl.
    rewrite Hfmt. simpl. reflexivity.
  - done.
  - simpl. by rewrite <- !app_assoc.
  - intros g. run_tab. rewrite Hfmt. simpl. by rewrite <- !app_assoc.
Qed.

End second_tab.

(** * The client's requests at the backend *)

Section client_to_backend.
Import api.
Context `{PyLib}.
Hypothesis validate_float_number : ∀ x, validate_float (JNum x) = Some x.
Hypothesis validate_str_string : ∀ t, validate_str (JStr t) = Some t.

Lemma float_gt_intro x limit : (limit < x)%Q → float_gt x limit = true.
Proof.
  intros Hlt. unfold float_gt. destruct (limit ?= x)%Q eqn:E; [|done|].
  - apply Qeq_alt in E. lra.
  - apply Qgt_alt in E. lra.
Qed.

Lemma float_le_intro x limit : (x <= limit)%Q → float_le x limit = true.
Proof.
  intros Hle. unfold float_le. destruct (x ?= limit)%Q eqn:E; [done..|].
  apply Qgt_alt in E. lra.
Qed.

Lemma float_field_accepts gt le name d x :
  d !! name = Some (JNum x) →
  match gt with Some g => (g < x)%Q | None => True end →
  match le with Some l => (x <= l)%Q | None => True end →
  float_field gt le name d = inr x.
Proof.
  intros Hd Hgt Hle. unfold float_field. rewrite Hd, validate_float_number.
  destruct gt as [g|], le as [l|];
    rewrite ?float_gt_intro, ?float_le_intro by done; done.
Qed.

Lemma str_field_accepts name d t :
  d !! name = Some (JStr t) → str_field name d = inr t.
Proof. intros Hd. unfold str_field. by rewrite Hd, validate_str_string. Qed.

(** X23. The request of the first tab always passes the validation of
    the backend: with the widgets within their ranges, the body the
    client builds becomes the [TripInput] that carries the values of the
    form, so the first tab cannot cause a 422. *)
Theorem basic_request_passes_validation (f : app.BasicForm) :
  app.basic_form_in_range f →
  TripInput_validate (json_object (app.basic_trip_data f))
  = inr (app.basic_trip f).
Proof.
  intros (Hd & _ & Hp1 & Hp10 & Hb & _ & Hk & _ & Hm & _ & Ht & _).
  unfold TripInput_validate.
  rewrite (float_field_accepts _ _ "Trip_Distance_km" _ (app.trip_distance f));
    [|by vm_compute|simpl; lra|done].
  rewrite (str_field_accepts "Time_of_Day" _ (app.time_of_day f))
    by (by vm_compute).
  rewrite (str_field_accepts "Day_of_Week" _ (app.day_of_week f))
    by (by vm_compute).
  rewrite (float_field_accepts _ _ "Passenger_Count" _
             (inject_Z (app.passenger_count f)));
    [|by vm_compute|unfold Qlt; simpl; lia|unfold Qle; simpl; lia].
  rewrite (str_field_accepts "Traffic_Conditions" _ (app.traffic_conditions f))
    by (by vm_compute).
  rewrite (str_field_accepts "Weather" _ (app.weather f)) by (by vm_compute).
  rewrite (float_field_accepts _ _ "Base_Fare" _ (app.base_fare f));
    [|by vm_compute|simpl; lra|done].
  rewrite (float_field_accepts _ _ "Per_Km_Rate" _ (app.per_km_rate f));
    [|by vm_compute|simpl; lra|done].
  rewrite (float_field_accepts _ _ "Per_Minute_Rate" _ (app.per_minute_rate f));
    [|by vm_compute|simpl; lra|done].
  rewrite (float_field_accepts _ _ "Trip_Duration_Minutes" _
             (inject_Z (app.trip_duration f)));
    [|by vm_compute|unfold Qlt; simpl; lia|done].
  done.
Qed.

(** X24. The second tab has no such guarantee: its pricing widgets have
    no lower bound and the measured distance is zero for a place and
    itself. A request of the second tab with a distance, a fare, a rate
    or a duration at or below zero is answered with 422, and the process
    is untouched. *)
Theorem route_request_at_or_below_zero_is_rejected
    (f : app.RouteForm) (km : float) (p : Process) :
  ((km <= 0)%Q ∨ (app.route_base f <= 0)%Q ∨ (app.route_km_rate f <= 0)%Q
   ∨ (app.route_min_rate f <= 0)%Q ∨ (app.route_duration f <= 0)%Z) →
  validation_errors (json_object (app.route_trip_data f km)) ≠ []
  ∧ post_predict (app.route_trip_data f km) p
    = ({| status_code := 422;
          body := validation_json
                    (validation_errors
                       (json_object (app.route_trip_data f km))) |}, p).
Proof.
  intros Hbad.
  assert (Hv : violates_constraint (app.route_trip_data f km)).
  { left. unfold supplied_float.
    destruct Hbad as [Hle|[Hle|[Hle|[Hle|Hle]]]].
    - exists "Trip_Distance_km", km. split; [by vm_compute; left|].
      split; [|done].
      replace (json_object (app.route_trip_data f km) !! "Trip_Distance_km")
        with (Some (JNum km)) by (by vm_compute).
      apply validate_float_number.
    - exists "Base_Fare", (app.route_base f).
      split; [apply (bool_decide_unpack _); by vm_compute|]. split; [|done].
      replace (json_object (app.route_trip_data f km) !! "Base_Fare")
        with (Some (JNum (app.route_base f))) by (by vm_compute).
      apply validate_float_number.
    - exists "Per_Km_Rate", (app.route_km_rate f).
      split; [apply (bool_decide_unpack _); by vm_compute|]. split; [|done].
      replace (json_object (app.route_trip_data f km) !! "Per_Km_Rate")
        with (Some (JNum (app.route_km_rate f))) by (by vm_compute).
      apply validate_float_number.
    - exists "Per_Minute_Rate", (app.route_min_rate f).
      split; [apply (bool_decide_unpack _); by vm_compute|]. split; [|done].
      replace (json_object (app.route_trip_data f km) !! "Per_Minute_Rate")
        with (Some (JNum (app.route_min_rate f))) by (by vm_compute).
      apply validate_float_number.
    - exists "Trip_Duration_Minutes", (inject_Z (app.route_duration f)).
      split; [apply (bool_decide_unpack _); by vm_compute|].
      split; [|unfold Qle; simpl; lia].
      replace (json_object (app.route_trip_data f km) !! "Trip_Duration_Minutes")
        with (Some (JNum (inject_Z (app.route_duration f)))) by (by vm_compute).
      apply validate_float_number. }
  destruct (violation_entry _ Hv) as (name & e & Hin).
  assert (Hne : validation_errors (json_object (app.route_trip_data f km)) ≠ []).
  { intros Heq. rewrite Heq in Hin. by apply elem_of_nil in Hin. }
  split; [done|]. unfold post_predict.
  by rewrite (TripInput_validate_errors _ Hne).
Qed.

End client_to_backend.

(** * The further statements on the reference deployment *)

Section more_on_reference.
Import reference.
#[local] Existing Instance py.

Lemma accepted_trip_is_within_bounds_witness :
  api.TripInput_validate (api.json_object (request (31 # 2) "Morning"))
  = inr (trip "Morning")
  ∧ (0 < api.Trip_Distance_km (trip "Morning"))%Q
  ∧ (0 < api.Passenger_Count (trip "Morning"))%Q
  ∧ (api.Passenger_Count (trip "Morning") <= 10)%Q.
Proof.
  assert (Hv : api.TripInput_validate
                 (api.json_object (request (31 # 2) "Morning"))
               = inr (trip "Morning")) by (vm_compute; reflexivity).
  split; [exact Hv|].
  destruct (accepted_trip_is_within_bounds _ _ Hv) as (Hd & Hp & Hp10 & _).
  exact (conj Hd (conj Hp Hp10)).
Defined.


Lemma missing_encoder_is_http_500_witness :
  let p := process_of without_weather_encoder in
  let p1 := {| api.globals := without_weather_encoder;
               api.calls := take 3 encoder_calls |} in
  api.encode_columns ["Time_of_Day"; "Day_of_Week"; "Traffic_Conditions"]
    (api.TripInput_dict (trip "Morning")) p
  = (inr (api.df_setitem "Weather" (CStr "Clear") encoded_row), p1)
  ∧ api.label_encoders without_weather_encoder !! "Weather" = None
  ∧ api.post_predict (request (31 # 2) "Morning") p
    = ({| api.status_code := 500;
          api.body := api.detail_json
                        ("Prediction error: " +:+ repr_str "Weather") |}, p1).
Proof.
  assert (Hpre : api.encode_columns
                   ["Time_of_Day"; "Day_of_Week"; "Traffic_Conditions"]
                   (api.TripInput_dict (trip "Morning"))
                   (process_of without_weather_encoder)
                 = (inr (api.df_setitem "Weather" (CStr "Clear") encoded_row),
                    {| api.globals := without_weather_encoder;
                       api.calls := take 3 encoder_calls |}))
    by (vm_compute; reflexivity).
  assert (Hnone : api.label_encoders without_weather_encoder !! "Weather" = None)
    by (vm_compute; reflexivity).
  split; [exact Hpre|]. split; [exact Hnone|].
  refine (missing_encoder_is_http_500 (request (31 # 2) "Morning")
            (trip "Morning") (process_of without_weather_encoder) _
            ["Time_of_Day"; "Day_of_Week"; "Traffic_Conditions"] [] "Weather"
            _ _ eq_refl Hpre _ Hnone).
  - vm_compute; reflexivity.
  - apply (bool_decide_unpack _); vm_compute; exact I.
Defined.

Lemma missing_numerical_column_is_http_500_witness :
  let p := process_of with_surge_column in
  let p1 := {| api.globals := with_surge_column; api.calls := encoder_calls |} in
  api.encode_columns (api.categorical_features (api.feature_info with_surge_column))
    (api.TripInput_dict (trip "Morning")) p = (inr encoded_row, p1)
  ∧ ("Surge_Multiplier" ∉ api.field_names)
  ∧ api.post_predict (request (31 # 2) "Morning") p
    = ({| api.status_code := 500;
          api.body :=
            api.detail_json
              ("Prediction error: "
               +:+ repr_str
                     (pandas_not_in_index ["Trip_Distance_km"; "Surge_Multiplier"]
                        api.field_names)) |}, p1).
Proof.
  assert (Henc : api.encode_columns
                   (api.categorical_features (api.feature_info with_surge_column))
                   (api.TripInput_dict (trip "Morning"))
                   (process_of with_surge_column)
                 = (inr encoded_row,
                    {| api.globals := with_surge_column;
                       api.calls := encoder_calls |}))
    by (vm_compute; reflexivity).
  assert (Hout : "Surge_Multiplier" ∉ api.field_names)
    by (apply (bool_decide_unpack _); vm_compute; exact I).
  split; [exact Henc|]. split; [exact Hout|].
  refine (proj1 (missing_numerical_column_is_http_500
                   (request (31 # 2) "Morning") (trip "Morning")
                   (process_of with_surge_column) _ _
                   "Surge_Multiplier" _ Henc _ Hout)).
  - vm_compute; reflexivity.
  - apply (bool_decide_unpack _); vm_compute; exact I.
Defined.

Lemma scaler_failure_is_http_500_witness :
  let p := process_of with_narrow_scaler in
  let p1 := {| api.globals := with_narrow_scaler; api.calls := encoder_calls |} in
  api.encode_columns (api.categorical_features (api.feature_info with_narrow_scaler))
    (api.TripInput_dict (trip "Morning")) p = (inr encoded_row, p1)
  ∧ api.post_predict (request (31 # 2) "Morning") p
    = ({| api.status_code := 500;
          api.body := api.detail_json
                        "Prediction error: Columns must be same length as key" |},
       api.called (api.scaler_transform numerical_part) p1).
Proof.
  assert (Henc : api.encode_columns
                   (api.categorical_features (api.feature_info with_narrow_scaler))
                   (api.TripInput_dict (trip "Morning"))
                   (process_of with_narrow_scaler)
                 = (inr encoded_row,
                    {| api.globals := with_narrow_scaler;
                       api.calls := encoder_calls |}))
    by (vm_compute; reflexivity).
  split; [exact Henc|].
  apply (scaler_failure_is_http_500 (request (31 # 2) "Morning")
           (trip "Morning") (process_of with_narrow_scaler) _ encoded_row
           numerical_part (ValueError "Columns must be same length as key")).
  - vm_compute; reflexivity.
  - exact Henc.
  - vm_compute; reflexivity.
  - right. exists [1%Q]. split; [reflexivity|]. split; [|reflexivity].
    vm_compute. lia.
Defined.

Lemma model_failure_is_http_500_witness :
  let p := process_of with_silent_model in
  let p1 := {| api.globals := with_silent_model; api.calls := encoder_calls |} in
  let p2 := api.called (api.scaler_transform numerical_part) p1 in
  api.scale_columns encoded_row p1 = (inr scaled_row, p2)
  ∧ api.post_predict (request (31 # 2) "Morning") p
    = ({| api.status_code := 500;
          api.body :=
            api.detail_json
              "Prediction error: index 0 is out of bounds for axis 0 with size 0" |},
       api.called (api.model_predict scaled_row) p2).
Proof.
  assert (Hsc : api.scale_columns encoded_row
                  {| api.globals := with_silent_model; api.calls := encoder_calls |}
                = (inr scaled_row,
                   api.called (api.scaler_transform numerical_part)
                     {| api.globals := with_silent_model;
                        api.calls := encoder_calls |}))
    by (vm_compute; reflexivity).
  split; [exact Hsc|].
  apply (model_failure_is_http_500 (request (31 # 2) "Morning")
           (trip "Morning") (process_of with_silent_model)
           {| api.globals := with_silent_model; api.calls := encoder_calls |}
           _ encoded_row scaled_row
           (IndexError "index 0 is out of bounds for axis 0 with size 0")).
  - vm_compute; reflexivity.
  - vm_compute; reflexivity.
  - exact Hsc.
  - right. split; reflexivity.
Defined.

Lemma successful_run_calls_in_pipeline_order_witness :
  let run := api.post_predict (request (31 # 2) "Morning") process in
  api.status_code run.1 = 200%Z
  ∧ ∃ (encs : list api.call) (sub df : api.DataFrame),
      api.calls run.2
      = [] ++ encs ++ [api.scaler_transform sub; api.model_predict df]
      ∧ Forall (λ c, api.is_encoder_call c = true) encs
      ∧ omap api.encoder_call_column encs
        = filter (λ c, c ∈ api.field_names)
            (api.categorical_features (api.feature_info artifacts))
      ∧ api.columns sub = api.numerical_features (api.feature_info artifacts)
      ∧ api.columns df = api.field_names.
Proof.
  assert (Hstatus : api.status_code
                      (api.post_predict (request (31 # 2) "Morning") process).1
                    = 200%Z) by (vm_compute; reflexivity).
  split; [exact Hstatus|].
  exact (successful_run_calls_in_pipeline_order _ _ _ _
           (surjective_pairing _) Hstatus).
Defined.

Lemma encoding_replaces_labels_by_codes_witness :
  let cols := api.categorical_features (api.feature_info artifacts) in
  let df := api.TripInput_dict (trip "Morning") in
  let p' := {| api.globals := artifacts; api.calls := encoder_calls |} in
  NoDup cols
  ∧ api.encode_columns cols df process = (inr encoded_row, p')
  ∧ (∀ col, col ∉ cols → api.df_cell col encoded_row = api.df_cell col df)
  ∧ api.columns encoded_row = api.columns df.
Proof.
  assert (Hnd : NoDup (api.categorical_features (api.feature_info artifacts)))
    by (apply (bool_decide_unpack _); vm_compute; exact I).
  assert (Hrun : api.encode_columns
                   (api.categorical_features (api.feature_info artifacts))
                   (api.TripInput_dict (trip "Morning")) process
                 = (inr encoded_row,
                    {| api.globals := artifacts; api.calls := encoder_calls |}))
    by (vm_compute; reflexivity).
  split; [exact Hnd|]. split; [exact Hrun|].
  exact (proj2 (encoding_replaces_labels_by_codes _ _ _ _ _ Hnd Hrun)).
Defined.


Lemma basic_success_shows_price_witness :
  let out := outside gazetteer (inr (ok_response price_members)) in
  app.status_code (ok_response price_members) = 200%Z
  ∧ @json_format_2f py (JNum (2790 # 100)) = inr "2790e-2"
  ∧ @app.tab1 py out true basic_form session
    = (inr tt,
       {| app.route_result := None;
          app.trace :=
            [] ++ [ app.st_spinner "Calculating price...";
                    app.post app.API_URL (app.basic_trip_data basic_form);
                    app.st_success "Prediction successful!";
                    app.st_markdown "### Estimated Trip Price";
                    app.st_markdown ("# " +:+ "2790e-2" +:+ " " +:+ "SEK");
                    app.st_info (app.basic_summary basic_form) ] |}).
Proof.
  split; [reflexivity|]. split; [vm_compute; reflexivity|].
  apply (@basic_success_shows_price py
           (outside gazetteer (inr (ok_response price_members)))
           basic_form session (ok_response price_members)
           (list_to_map price_members) (JNum (2790 # 100)) (JStr "SEK")
           "2790e-2").
  - reflexivity.
  - reflexivity.
  - reflexivity.
  - vm_compute; reflexivity.
  - vm_compute; reflexivity.
  - vm_compute; reflexivity.
Defined.

Lemma basic_incomplete_body_shows_error_witness :
  let out := outside gazetteer (inr (ok_response currency_only)) in
  app.status_code (ok_response currency_only) = 200%Z
  ∧ (list_to_map currency_only : gmap string jvalue) !! "predicted_price" = None
  ∧ @app.tab1 py out true basic_form session
    = (inr tt,
       {| app.route_result := None;
          app.trace :=
            [] ++ [ app.st_spinner "Calculating price...";
                    app.post app.API_URL (app.basic_trip_data basic_form) ]
               ++ [ app.st_error ("Error: " +:+ repr_str "predicted_price") ] |}).
Proof.
  assert (Hnone : (list_to_map currency_only : gmap string jvalue)
                  !! "predicted_price" = None) by (vm_compute; reflexivity).
  split; [reflexivity|]. split; [exact Hnone|].
  exact (proj1 (proj1 (@basic_incomplete_body_shows_error py
                         (outside gazetteer (inr (ok_response currency_only)))
                         basic_form session (ok_response currency_only)
                         (list_to_map currency_only) eq_refl eq_refl eq_refl
                         JNull "" (ValueError "")) Hnone)).
Defined.

Lemma geocoder_exception_is_reported_witness :
  let f := route_form "Stockholm" "Uppsala" in
  let e := OtherException "GeocoderTimedOut" "Service timed out" in
  timing_out "Stockholm" = inl e
  ∧ @app.tab2 py (outside timing_out (inr error_response)) true f session
    = (inr tt,
       {| app.route_result := Some (app.route_failure "Service timed out");
          app.trace :=
            [] ++ [ app.geocoding f; app.geocode "Stockholm";
                    app.st_error ("❌ " +:+ "Service timed out") ] |})
  ∧ timing_out_later "Uppsala" = inl e
  ∧ @app.tab2 py (outside timing_out_later (inr error_response)) true f session
    = (inr tt,
       {| app.route_result := Some (app.route_failure "Service timed out");
          app.trace :=
            [] ++ [ app.geocoding f; app.geocode "Stockholm";
                    app.geocode "Uppsala";
                    app.st_error ("❌ " +:+ "Service timed out") ] |}).
Proof.
  split; [reflexivity|]. split.
  - exact (proj1 (@geocoder_exception_is_reported py
                    (outside timing_out (inr error_response))
                    (route_form "Stockholm" "Uppsala") session
                    (OtherException "GeocoderTimedOut" "Service timed out"))
             eq_refl).
  - split; [reflexivity|].
    exact (proj2 (@geocoder_exception_is_reported py
                    (outside timing_out_later (inr error_response))
                    (route_form "Stockholm" "Uppsala") session
                    (OtherException "GeocoderTimedOut" "Service timed out"))
             (Some stockholm) eq_refl eq_refl).
Defined.

Lemma route_success_is_stored_and_shown_witness :
  let out := outside gazetteer (inr (ok_response price_members)) in
  let f := route_form "Stockholm" "Uppsala" in
  let stored :=
    @app.route_stored py f stockholm uppsala stockholm_uppsala_km
      (JNum (2790 # 100)) (JStr "SEK") in
  gazetteer "Stockholm" = inr (Some stockholm)
  ∧ gazetteer "Uppsala" = inr (Some uppsala)
  ∧ (@app.tab2 py out true f session).1 = inr tt
  ∧ app.route_result (@app.tab2 py out true f session).2
    = Some (app.route_success stored).
Proof.
  pose proof (@route_success_is_stored_and_shown py
                (outside gazetteer (inr (ok_response price_members)))
                (route_form "Stockholm" "Uppsala") session stockholm uppsala
                stockholm_uppsala_km (ok_response price_members)
                (list_to_map price_members) (JNum (2790 # 100)) (JStr "SEK")
                "2790e-2" eq_refl eq_refl eq_refl eq_refl eq_refl eq_refl)
    as Hrun.
  simpl in Hrun.
  split; [reflexivity|]. split; [reflexivity|].
  rewrite Hrun; [by split|vm_compute; reflexivity..].
Defined.

Lemma route_unformattable_price_raises_witness :
  let out := outside gazetteer (inr (ok_response price_in_words)) in
  let f := route_form "Stockholm" "Uppsala" in
  let e := ValueError "Unknown format code 'f'" in
  @json_format_2f py (JStr "a lot") = inl e
  ∧ ∃ after,
      @app.tab2 py out true f session = (inl e, after)
      ∧ (@app.tab2 py out false f after).1 = inl e.
Proof.
  split; [reflexivity|].
  destruct (@route_unformattable_price_raises py
              (outside gazetteer (inr (ok_response price_in_words)))
              (route_form "Stockholm" "Uppsala") session stockholm uppsala
              stockholm_uppsala_km (ok_response price_in_words)
              (list_to_map price_in_words) (JStr "a lot") (JStr "SEK")
              (ValueError "Unknown format code 'f'")
              eq_refl eq_refl eq_refl eq_refl eq_refl eq_refl)
    as (after & Hrun & _ & _ & Hagain);
    [vm_compute; reflexivity..|].
  exists after. split; [exact Hrun|]. by rewrite Hagain.
Defined.

Lemma basic_request_passes_validation_witness :
  app.basic_form_in_range basic_form
  ∧ api.TripInput_validate (api.json_object (app.basic_trip_data basic_form))
    = inr (app.basic_trip basic_form).
Proof.
  assert (Hrange : app.basic_form_in_range basic_form).
  { unfold app.basic_form_in_range, Qle. simpl. lia. }
  split; [exact Hrange|].
  exact (@basic_request_passes_validation py (λ x, eq_refl) (λ t, eq_refl)
           basic_form Hrange).
Defined.

Lemma route_request_at_or_below_zero_is_rejected_witness :
  let f := route_form "Stockholm" "Stockholm" in
  (0 <= 0)%Q
  ∧ (api.post_predict (app.route_trip_data f 0) process).1
    = {| api.status_code := 422;
         api.body := api.validation_json
                       (api.validation_errors
                          (api.json_object (app.route_trip_data f 0))) |}.
Proof.
  assert (Hle : (0 <= 0)%Q) by apply Qle_refl.
  split; [exact Hle|].
  destruct (@route_request_at_or_below_zero_is_rejected py (λ x, eq_refl)
              (route_form "Stockholm" "Stockholm") 0 process (or_introl Hle))
    as [_ Hrun].
  by rewrite Hrun.
Defined.

End more_on_reference.
